(** * The snapshot pipeline of polymarket-data-starter

    A shallow embedding of [src/models.py], of the token loop and the
    identity expression of [src/gamma_client.py] and of the snapshot
    builders, the streaming decoders and the save operations of
    [src/recorder.py], followed by the properties the specification states
    about them.

    Python values are embedded as follows.
    - [float] is IEEE binary64: Rocq's primitive [float], whose operations
      are the ones the Python interpreter performs.
    - [int] is [Z]; [str] is [string], read as ASCII text; [Optional[T]]
      is [option T].
    - a decoded JSON value ([Any]) is a [pyval]; a [dict] is a
      [gmap string pyval].
    - a raising computation returns [Raise e] in the error monad [result].
    - [datetime.utcnow()] is an argument [now] of the function that reads
      the clock. *)

From Stdlib Require Import ZArith Floats Lia Ascii String List Bool.
From stdpp Require Import gmap strings list.

Set Warnings "-inexact-float,-register-all".
Set Default Proof Using "Type".

(** ** Python: exceptions, values and builtins *)

Module Py.

Local Open Scope Z_scope.

(** The exception classes the embedded code can raise. [SqliteError] is
    the storage layer's own error class; [RuntimeError] carries its
    message. *)
Inductive exn : Set :=
  | TypeError
  | ValueError
  | KeyError
  | IndexError
  | AttributeError
  | OverflowError
  | OSError
  | ValidationError
  | SqliteError
  | RuntimeError (msg : string).

Inductive result (A : Type) : Type :=
  | Ok (a : A)
  | Raise (e : exn).
Arguments Ok {A} a.
Arguments Raise {A} e.

#[export] Instance result_ret : MRet result := fun _ a => Ok a.
#[export] Instance result_bind : MBind result := fun _ _ f m =>
  match m with
  | Ok a => f a
  | Raise e => Raise e
  end.
#[export] Instance result_fmap : FMap result := fun _ _ f m =>
  match m with
  | Ok a => Ok (f a)
  | Raise e => Raise e
  end.

Definition is_ok {A} (m : result A) : bool :=
  match m with
  | Ok _ => true
  | Raise _ => false
  end.

(** [try: m except ValueError: h]. *)
Definition except_ValueError {A} (m : result A) (h : result A) : result A :=
  match m with
  | Raise ValueError => h
  | _ => m
  end.

(** Sequencing a loop body over a list, left to right, stopping at the
    first exception. *)
Fixpoint mapM {A B} (f : A -> result B) (l : list A) : result (list B) :=
  match l with
  | [] => Ok []
  | x :: l' => y ← f x; ys ← mapM f l'; Ok (y :: ys)
  end.

(** A decoded JSON value. *)
Inductive pyval : Type :=
  | PNone
  | PBool (b : bool)
  | PInt (z : Z)
  | PFloat (f : float)
  | PStr (s : string)
  | PList (l : list pyval)
  | PDict (d : gmap string pyval).

Abbreviation dict := (gmap string pyval).

(** [d.get(k)] and [d.get(k, dflt)]. *)
Definition get (d : dict) (k : string) : pyval := default PNone (d !! k).
Definition get_or (d : dict) (k : string) (dflt : pyval) : pyval :=
  default dflt (d !! k).

(** Truth value testing. A NaN is true; both zeros are false. *)
Definition truthy (v : pyval) : bool :=
  match v with
  | PNone => false
  | PBool b => b
  | PInt z => negb (z =? 0)
  | PFloat f => negb (f =? 0)%float
  | PStr s => negb (String.eqb s "")
  | PList l => negb (Nat.eqb (List.length l) 0)
  | PDict d => negb (Nat.eqb (size d) 0)
  end.

(** [a or b]. *)
Definition py_or (a b : pyval) : pyval := if truthy a then a else b.

(** *** Exact rounding to binary64 *)

(** The integer nearest to [num / den] ([den > 0]), ties to even. *)
Definition round_half_even (num den : Z) : Z :=
  let q := num / den in
  match 2 * (num mod den) ?= den with
  | Lt => q
  | Gt => q + 1
  | Eq => if Z.even q then q else q + 1
  end.

Definition signed (neg : bool) (f : float) : float :=
  if neg then (- f)%float else f.

(** The binary64 nearest to [a / b] ([a >= 0], [b > 0]), ties to even,
    overflowing to infinity: the result of a correctly rounded conversion
    such as [strtod] or the division of two integers. *)
Definition of_ratio (neg : bool) (a b : Z) : float :=
  if a <=? 0 then signed neg PrimFloat.zero
  else
    let scaled e := (a * 2 ^ Z.max 0 (- e), b * 2 ^ Z.max 0 e) in
    let e1 := Z.log2 a - Z.log2 b - 52 in
    let e2 := if fst (scaled e1) <? 2 ^ 52 * snd (scaled e1) then e1 - 1 else e1 in
    let e3 := Z.max e2 (-1074) in
    let m := round_half_even (fst (scaled e3)) (snd (scaled e3)) in
    let '(m, e) := if m =? 2 ^ 53 then (2 ^ 52, e3 + 1) else (m, e3) in
    if 971 <? e then signed neg infinity
    else signed neg (Z.ldexp (of_uint63 (Uint63.of_Z m)) e).

(** [round(x, ndigits)] for [ndigits >= 0]: the decimal with [ndigits]
    fractional digits nearest to the exact value of [x], ties to even, read
    back as a float. Infinities and NaN round to themselves. *)
Definition py_round (x : float) (ndigits : Z) : float :=
  match Prim2SF x with
  | S754_finite s m e =>
      let scale := 10 ^ ndigits in
      let r := round_half_even (Zpos m * 2 ^ Z.max 0 e * scale) (2 ^ Z.max 0 (- e)) in
      of_ratio s r scale
  | _ => x
  end.

(** *** [float(...)] *)

Definition is_digit (c : ascii) : bool :=
  let n := Z.of_N (N_of_ascii c) in (48 <=? n) && (n <=? 57).
Definition digit_val (c : ascii) : Z := Z.of_N (N_of_ascii c) - 48.

(** The white space [float] strips from ASCII text: the tab, the line
    feed, the vertical tab, the form feed, the carriage return and the
    space. The separators 28 to 31, which [str.strip] removes, are not
    among them. *)
Definition is_space (c : ascii) : bool :=
  let n := Z.of_N (N_of_ascii c) in
  ((9 <=? n) && (n <=? 13)) || (n =? 32).

Definition lower_ascii (c : ascii) : ascii :=
  let n := N_of_ascii c in
  if ((65 <=? n) && (n <=? 90))%N then ascii_of_N (n + 32) else c.

(** [s.lower()], on ASCII text. *)
Fixpoint lower (s : string) : string :=
  match s with
  | EmptyString => EmptyString
  | String c s' => String (lower_ascii c) (lower s')
  end.

Fixpoint lstrip (s : list ascii) : list ascii :=
  match s with
  | c :: s' => if is_space c then lstrip s' else s
  | [] => []
  end.
Definition strip (s : list ascii) : list ascii :=
  rev (lstrip (rev (lstrip s))).

(** Underscores are dropped when each stands between two digits; any other
    underscore is a syntax error. [prev] is the character before [s]. *)
Fixpoint drop_underscores (prev : option ascii) (s : list ascii) : option (list ascii) :=
  let after_underscore := bool_decide (prev = Some "_"%char) in
  match s with
  | [] => if after_underscore then None else Some []
  | c :: s' =>
      if Ascii.eqb c "_" then
        match prev with
        | Some p => if is_digit p then drop_underscores (Some c) s' else None
        | None => None
        end
      else if after_underscore && negb (is_digit c) then None
      else cons c <$> drop_underscores (Some c) s'
  end.

Fixpoint span_digits (s : list ascii) : list ascii * list ascii :=
  match s with
  | c :: s' =>
      if is_digit c then let '(ds, r) := span_digits s' in (c :: ds, r)
      else ([], s)
  | [] => ([], [])
  end.

Definition digits_val (ds : list ascii) : Z :=
  fold_left (fun acc c => 10 * acc + digit_val c) ds 0.

Definition take_sign (s : list ascii) : bool * list ascii :=
  match s with
  | c :: s' =>
      if Ascii.eqb c "-" then (true, s')
      else if Ascii.eqb c "+" then (false, s')
      else (false, s)
  | [] => (false, [])
  end.

(** The exponent part: empty, or [e] or [E], an optional sign and at least
    one digit, up to the end of the text. *)
Definition parse_exponent (s : list ascii) : option Z :=
  match s with
  | [] => Some 0
  | c :: s' =>
      if Ascii.eqb (lower_ascii c) "e" then
        let '(neg, s'') := take_sign s' in
        match span_digits s'' with
        | ((_ :: _) as ds, []) => Some (if neg then - digits_val ds else digits_val ds)
        | _ => None
        end
      else None
  end.

(** [float(s)] for a [str], by the grammar of the language reference: white
    space around an optional sign and [inf], [infinity], [nan] or a decimal
    numeral with an optional exponent, correctly rounded. [None] stands
    for [ValueError]. *)
Definition float_of_str (s : string) : option float :=
  body ← drop_underscores None (strip (list_ascii_of_string s));
  let '(neg, num) := take_sign body in
  let word := lower (string_of_list_ascii num) in
  if String.eqb word "inf" || String.eqb word "infinity" then Some (signed neg infinity)
  else if String.eqb word "nan" then Some nan
  else
    let '(ip, r) := span_digits num in
    let '(fp, r) :=
      match r with
      | c :: r' => if Ascii.eqb c "." then span_digits r' else ([], r)
      | [] => ([], [])
      end in
    match ip ++ fp with
    | [] => None
    | ds =>
        ex ← parse_exponent r;
        let e10 := ex - Z.of_nat (List.length fp) in
        Some (of_ratio neg (digits_val ds * 10 ^ Z.max 0 e10) (10 ^ Z.max 0 (- e10)))
    end.

(** [float(n)] for an [int]: correctly rounded, [OverflowError] beyond the
    largest float. *)
Definition float_of_int (z : Z) : result float :=
  let f := of_ratio (z <? 0) (Z.abs z) 1 in
  if is_infinity f then Raise OverflowError else Ok f.

Definition float_of_bool (b : bool) : float :=
  if b then PrimFloat.one else PrimFloat.zero.

Definition py_float (v : pyval) : result float :=
  match v with
  | PFloat f => Ok f
  | PInt z => float_of_int z
  | PBool b => Ok (float_of_bool b)
  | PStr s => match float_of_str s with Some f => Ok f | None => Raise ValueError end
  | PNone | PList _ | PDict _ => Raise TypeError
  end.

(** [a / b] for an [int] [a] and a positive [int] [b]: true division,
    correctly rounded, [OverflowError] beyond the largest float. *)
Definition int_truediv (a b : Z) : result float :=
  let f := of_ratio (a <? 0) (Z.abs a) b in
  if is_infinity f then Raise OverflowError else Ok f.

(** *** [str(...)] *)

Definition digit_char (d : Z) : ascii := ascii_of_N (Z.to_N (48 + d)).

Fixpoint decimal_digits (fuel : nat) (n : Z) (acc : string) : string :=
  match fuel with
  | O => acc
  | S fuel' =>
      let acc' := String (digit_char (n mod 10)) acc in
      if n <? 10 then acc' else decimal_digits fuel' (n / 10) acc'
  end.

(** The decimal numeral of an [int]. A numeral has at most
    [log2 n + 1] digits. *)
Definition str_of_int (z : Z) : string :=
  let body := decimal_digits (Z.to_nat (Z.log2 (Z.abs z) + 1)) (Z.abs z) "" in
  if z <? 0 then String "-" body else body.

(** A numeral padded with zeros on the left up to [width] characters. *)
Definition zfill (width : nat) (s : string) : string :=
  string_of_list_ascii (replicate (width - String.length s) "0"%char) +:+ s.

(** [str(v)]. The text of a float or of a container is [repr v], which is
    left to the argument [repr]. *)
Definition py_str (repr : pyval -> string) (v : pyval) : string :=
  match v with
  | PStr s => s
  | PInt z => str_of_int z
  | PBool b => if b then "True" else "False"
  | PNone => "None"
  | PFloat _ | PList _ | PDict _ => repr v
  end.

(** [s.replace(old, new)] for a one-character [old]. *)
Fixpoint replace_char (old : ascii) (new : string) (s : string) : string :=
  match s with
  | EmptyString => EmptyString
  | String c s' =>
      if Ascii.eqb c old then new +:+ replace_char old new s'
      else String c (replace_char old new s')
  end.

(** *** [datetime] *)

(** A [datetime]: its calendar fields, and the offset from UTC in seconds
    of its [tzinfo] when it is aware ([None]: a naive datetime). *)
Record datetime : Set := mk_datetime {
  year : Z;
  month : Z;
  day : Z;
  hour : Z;
  minute : Z;
  second : Z;
  microsecond : Z;
  tzinfo : option Z
}.

(** The proleptic Gregorian date of a day number counted from
    1970-01-01. *)
Definition civil_from_days (days : Z) : Z * Z * Z :=
  let z := days + 719468 in
  let era := z / 146097 in
  let doe := z - era * 146097 in
  let yoe := (doe - doe / 1460 + doe / 36524 - doe / 146096) / 365 in
  let doy := doe - (365 * yoe + yoe / 4 - yoe / 100) in
  let mp := (5 * doy + 2) / 153 in
  let d := doy - (153 * mp + 2) / 5 + 1 in
  let m := if mp <? 10 then mp + 3 else mp - 9 in
  (yoe + era * 400 + (if m <=? 2 then 1 else 0), m, d).

(** [modf]: the integral part of a finite float, as an integer, and its
    fractional part, both with the sign of the float. *)
Definition modf (x : float) : Z * float :=
  match Prim2SF x with
  | S754_finite s m e =>
      let den := 2 ^ Z.max 0 (- e) in
      let ip := Zpos m * 2 ^ Z.max 0 e / den in
      ((if s then - ip else ip), of_ratio s (Zpos m * 2 ^ Z.max 0 e mod den) den)
  | _ => (0, x)
  end.

(** The integer nearest to a finite float, ties to even. *)
Definition rint (x : float) : Z :=
  match Prim2SF x with
  | S754_finite s m e =>
      let r := round_half_even (Zpos m * 2 ^ Z.max 0 e) (2 ^ Z.max 0 (- e)) in
      if s then - r else r
  | _ => 0
  end.

(** [datetime.utcfromtimestamp(t)] for a float [t], as CPython computes it
    on Linux: the fraction is scaled to microseconds in float arithmetic and
    rounded half to even; a NaN is a [ValueError], a value beyond [time_t]
    an [OverflowError], a year beyond the C [int] an [OSError] of [gmtime]
    and a year outside 1..9999 a [ValueError]. The result is naive. *)
Definition utcfromtimestamp (t : float) : result datetime :=
  if is_nan t then Raise ValueError
  else if is_infinity t then Raise OverflowError
  else
    let '(ip, fp) := modf t in
    let us := rint (fp * 1000000)%float in
    let '(sec, us) :=
      if 1000000 <=? us then (ip + 1, us - 1000000)
      else if us <? 0 then (ip - 1, us + 1000000)
      else (ip, us) in
    if (sec <? - 2 ^ 63) || (2 ^ 63 <? sec) then Raise OverflowError
    else
      let '(y, m, d) := civil_from_days (sec / 86400) in
      let rem := sec mod 86400 in
      if (y - 1900 <? - 2 ^ 31) || (2 ^ 31 <=? y - 1900) then Raise OSError
      else if (y <? 1) || (9999 <? y) then Raise ValueError
      else Ok (mk_datetime y m d (rem / 3600) (rem mod 3600 / 60) (rem mod 60) us None).

Definition two_digits (n : Z) : string := zfill 2 (str_of_int n).

(** [dt.isoformat()]. *)
Definition isoformat (dt : datetime) : string :=
  zfill 4 (str_of_int (year dt)) +:+ "-" +:+ two_digits (month dt) +:+ "-"
  +:+ two_digits (day dt) +:+ "T" +:+ two_digits (hour dt) +:+ ":"
  +:+ two_digits (minute dt) +:+ ":" +:+ two_digits (second dt)
  +:+ (if microsecond dt =? 0 then "" else "." +:+ zfill 6 (str_of_int (microsecond dt)))
  +:+ match tzinfo dt with
      | None => ""
      | Some off =>
          let a := Z.abs off in
          (if off <? 0 then "-" else "+") +:+ two_digits (a / 3600) +:+ ":"
          +:+ two_digits (a mod 3600 / 60)
          +:+ (if a mod 60 =? 0 then "" else ":" +:+ two_digits (a mod 60))
      end.

(** *** Operations on a value of unknown shape *)

(** [len(v)]. *)
Definition py_len (v : pyval) : result nat :=
  match v with
  | PList l => Ok (List.length l)
  | PStr s => Ok (String.length s)
  | PDict d => Ok (size d)
  | PNone | PBool _ | PInt _ | PFloat _ => Raise TypeError
  end.

(** The items a [for] loop over [v] visits: the elements of a list, the
    characters of a string, the keys of a dict (in the order of the map:
    the code below calls a method of each item that no string has, so the
    order of the keys is not observed). *)
Definition py_iter (v : pyval) : result (list pyval) :=
  match v with
  | PList l => Ok l
  | PStr s => Ok ((fun c => PStr (String c EmptyString)) <$> list_ascii_of_string s)
  | PDict d => Ok ((fun kv => PStr kv.1) <$> map_to_list d)
  | PNone | PBool _ | PInt _ | PFloat _ => Raise TypeError
  end.

(** [v[i]] for an index [i >= 0]. The keys of a decoded JSON object are
    strings, so no integer is a key of one. *)
Definition py_getitem (v : pyval) (i : nat) : result pyval :=
  match v with
  | PList l => match l !! i with Some x => Ok x | None => Raise IndexError end
  | PStr s =>
      match list_ascii_of_string s !! i with
      | Some c => Ok (PStr (String c EmptyString))
      | None => Raise IndexError
      end
  | PDict _ => Raise KeyError
  | PNone | PBool _ | PInt _ | PFloat _ => Raise TypeError
  end.

(** [v[k]] for a string key [k]. *)
Definition py_getitem_key (v : pyval) (k : string) : result pyval :=
  match v with
  | PDict d => match d !! k with Some x => Ok x | None => Raise KeyError end
  | _ => Raise TypeError
  end.

(** [v[:n]] for [n > 0]. *)
Definition py_slice_to (v : pyval) (n : Z) : result pyval :=
  match v with
  | PList l => Ok (PList (take (Z.to_nat n) l))
  | PStr s => Ok (PStr (string_of_list_ascii (take (Z.to_nat n) (list_ascii_of_string s))))
  | _ => Raise TypeError
  end.

(** [v.get(k, dflt)]: only a dict has the method. *)
Definition py_method_get (v : pyval) (k : string) (dflt : pyval) : result pyval :=
  match v with
  | PDict d => Ok (get_or d k dflt)
  | _ => Raise AttributeError
  end.

(** [enumerate(l)]. *)
Definition enumerate {A} (l : list A) : list (nat * A) :=
  zip (seq 0 (List.length l)) l.

End Py.

(** ** [src/models.py] *)

Module Models.
Import Py.

(** A [str] field of a model accepts a string and nothing else among the
    decoded JSON values. *)
Definition validate_str (v : pyval) : result string :=
  match v with
  | PStr s => Ok s
  | _ => Raise ValidationError
  end.

(** An [Optional[str]] field accepts [None] or a string. *)
Definition validate_opt_str (v : pyval) : result (option string) :=
  match v with
  | PNone => Ok None
  | PStr s => Ok (Some s)
  | _ => Raise ValidationError
  end.

(** A [list] field accepts a list and nothing else among the decoded JSON
    values. *)
Definition validate_list (v : pyval) : result (list pyval) :=
  match v with
  | PList l => Ok l
  | _ => Raise ValidationError
  end.

Module Token.
Record t : Type := mk {
  token_id : string;
  outcome : string;
  price : float
}.

(** [Token(token_id=.., outcome=.., price=..)] with the first two
    arguments of unknown shape. *)
Definition new (token_id outcome : pyval) (price : float) : result t :=
  token_id ← validate_str token_id;
  outcome ← validate_str outcome;
  Ok (mk token_id outcome price).
End Token.

Module Market.
Record t : Type := mk {
  market_id : string;
  title : string;
  volume_24h : float;
  liquidity : float;
  end_time : string;
  tokens : list Token.t;
  outcomes : option (list string);
  best_bid : option float;
  best_ask : option float;
  last_trade_price : option float;
  competitive : option float;
  numeric_id : option string;
  slug : option string;
  condition_id : option string;
  start_time : option string;
  active : option bool;
  closed : option bool;
  archived : option bool;
  description : option string;
  category : option string;
  tags : option (list string);
  image : option string;
  resolution_source : option string;
  resolved : option bool;
  resolution_outcome : option string
}.
End Market.

Module MarketSnapshot.
Record t : Type := mk {
  timestamp : datetime;
  market_id : string;
  title : string;
  yes_price : float;
  no_price : float;
  best_bid : option float;
  best_ask : option float;
  volume_24h : option float;
  liquidity : option float;
  category : option string;
  end_time : option string;
  active : option bool
}.

Definition parity_gap (self : t) : float :=
  py_round (1.0 - yes_price self - no_price self)%float 6.

Definition spread (self : t) : option float :=
  if bool_decide (best_bid self <> None) && bool_decide (best_ask self <> None) then
    ask ← best_ask self; bid ← best_bid self; Some (py_round (ask - bid)%float 6)
  else None.
End MarketSnapshot.

Module OutcomeSnapshot.
Record t : Type := mk {
  timestamp : datetime;
  market_id : string;
  outcome : string;
  price : float;
  token_id : option string
}.
End OutcomeSnapshot.

Module OrderBookSnapshot.
Record t : Type := mk {
  timestamp : datetime;
  market_id : string;
  token_id : string;
  side : string;
  level : Z;
  price : float;
  size : float
}.
End OrderBookSnapshot.

Module TradeSnapshot.
Record t : Type := mk {
  timestamp : datetime;
  market_id : string;
  token_id : string;
  price : float;
  size : float;
  side : option string
}.

(** The constructor call of [create_trade_snapshots] and of
    [handle_trade_message]: the string fields arrive with unknown shape. *)
Definition new (timestamp : datetime) (market_id token_id : pyval)
    (price size : float) (side : pyval) : result t :=
  market_id ← validate_str market_id;
  token_id ← validate_str token_id;
  side ← validate_opt_str side;
  Ok (mk timestamp market_id token_id price size side).
End TradeSnapshot.

Module ResolutionSnapshot.
Record t : Type := mk {
  timestamp : datetime;
  market_id : string;
  resolved : bool;
  resolution_outcome : option string;
  resolution_source : option string
}.
End ResolutionSnapshot.

Module PriceChangeEvent.
Record t : Type := mk {
  timestamp : datetime;
  market_id : string;
  token_id : string;
  price : float;
  size : float;
  side : string;
  best_bid : option float;
  best_ask : option float
}.

(** The constructor call of [handle_price_change]: the three string
    fields arrive with unknown shape. *)
Definition new (timestamp : datetime) (market_id token_id : pyval)
    (price size : float) (side : pyval) (best_bid best_ask : option float) : result t :=
  market_id ← validate_str market_id;
  token_id ← validate_str token_id;
  side ← validate_str side;
  Ok (mk timestamp market_id token_id price size side best_bid best_ask).
End PriceChangeEvent.

Module BookEvent.
Record t : Type := mk {
  timestamp : datetime;
  market_id : string;
  token_id : string;
  hash : option string;
  bids : list pyval;
  asks : list pyval
}.

(** The constructor call of [handle_book_event]. *)
Definition new (timestamp : datetime) (market_id token_id hash bids asks : pyval)
    : result t :=
  market_id ← validate_str market_id;
  token_id ← validate_str token_id;
  hash ← validate_opt_str hash;
  bids ← validate_list bids;
  asks ← validate_list asks;
  Ok (mk timestamp market_id token_id hash bids asks).
End BookEvent.

End Models.

(** ** [src/gamma_client.py] *)

Module GammaClient.
Import Py Models.

(** The decoding of one array field at the head of [_parse_market]: a
    string is decoded by [json.loads], whose failure leaves the empty list,
    and any other value is taken as it is. [json_loads] is the library's
    decoder. *)
Definition decode_field (json_loads : string -> result pyval) (data : dict) (key : string)
    : pyval :=
  match get_or data key (PStr "[]") with
  | PStr text =>
      match json_loads text with
      | Ok v => v
      | Raise _ => PList []
      end
  | v => v
  end.

(** The token loop of [_parse_market] (the [for] over
    [enumerate(outcomes or [])]), over the three decoded fields [outcomes],
    [prices] and [token_ids]. One iteration: *)
Definition build_token (prices token_ids : pyval) (i : nat) (outcome : pyval)
    : result Token.t :=
  n_prices ← py_len prices;
  price ← (if (i <? n_prices)%nat then p ← py_getitem prices i; py_float p
           else Ok 0.0%float);
  n_ids ← py_len token_ids;
  token_id ← (if (i <? n_ids)%nat then py_getitem token_ids i else Ok (PStr ""));
  Token.new token_id outcome price.

Definition build_tokens (outcomes prices token_ids : pyval) : result (list Token.t) :=
  items ← py_iter (py_or outcomes (PList []));
  mapM (fun '(i, outcome) => build_token prices token_ids i outcome) (enumerate items).

(** The tokens [_parse_market] builds from a payload. *)
Definition parse_tokens (json_loads : string -> result pyval) (data : dict)
    : result (list Token.t) :=
  build_tokens (decode_field json_loads data "outcomes")
    (decode_field json_loads data "outcomePrices")
    (decode_field json_loads data "clobTokenIds").

(** The [market_id] argument of the [Market(...)] call of [_parse_market],
    before the model validates it. [repr] gives the text of a float or
    container [id]. *)
Definition market_id_arg (repr : pyval -> string) (data : dict) : pyval :=
  py_or (get_or data "conditionId" (PStr ""))
    (py_or (get_or data "condition_id" (PStr ""))
       (PStr (py_str repr (get_or data "id" (PStr ""))))).

(** The [market_id] of the market [_parse_market] builds. *)
Definition parse_market_id (repr : pyval -> string) (data : dict) : result string :=
  validate_str (market_id_arg repr data).

(** The [condition_id] argument of the same call, before the model
    validates it. *)
Definition condition_id_arg (data : dict) : pyval :=
  py_or (get_or data "conditionId" (PStr "")) (get_or data "condition_id" (PStr "")).

(** The [condition_id] of the market [_parse_market] builds, an
    [Optional[str]] field. *)
Definition parse_condition_id (data : dict) : result (option string) :=
  validate_opt_str (condition_id_arg data).

Definition filter_by_volume (markets : list Market.t) (min_volume : float) : list Market.t :=
  List.filter (fun m => (min_volume <=? Market.volume_24h m)%float) markets.

Definition filter_by_liquidity (markets : list Market.t) (min_liquidity : float)
    : list Market.t :=
  List.filter (fun m => (min_liquidity <=? Market.liquidity m)%float) markets.

(** [fetch_markets], from the arrival of the response on. [response] is
    what [client.get] brings: an exception, or the status code with what
    [response.json()] yields (a decoded body or an exception).
    [_parse_market] is the parser of one item. An item whose parsing raises
    is skipped; any other exception empties the result. *)
Definition fetch_markets (_parse_market : pyval -> result Market.t)
    (response : result (Z * result pyval)) : list Market.t :=
  let attempt : result (list Market.t) :=
    '(status_code, body) ← response;
    if negb (status_code =? 200)%Z then Ok []
    else
      data ← body;
      items ← py_iter data;
      Ok (fold_left
            (fun markets item =>
               match _parse_market item with
               | Ok market => markets ++ [market]
               | Raise _ => markets
               end)
            items [])
  in
  match attempt with
  | Ok markets => markets
  | Raise _ => []
  end.

End GammaClient.

(** ** [src/recorder.py] *)

Module DataRecorder.
Import Py Models.

Local Open Scope Z_scope.

(** *** The store *)

(** A value of a column of a stored row. *)
Inductive sqlval : Type :=
  | SqlNull
  | SqlInt (z : Z)
  | SqlReal (f : float)
  | SqlText (s : string).

(** A [float] bound to a [?] of a [REAL] column, as the table holds it:
    SQLite stores a NaN as [NULL] and a zero without its sign. *)
Definition sql_real (f : float) : sqlval :=
  if is_nan f then SqlNull
  else if (f =? 0)%float then SqlReal 0
  else SqlReal f.

(** An [int] that can be bound to a [?]: one of 64 bits. Binding any
    other raises [OverflowError]. *)
Definition fits_int64 (z : Z) : bool := (- 2 ^ 63 <=? z) && (z <? 2 ^ 63).

Definition sql_opt {A} (f : A -> sqlval) (o : option A) : sqlval :=
  match o with
  | Some a => f a
  | None => SqlNull
  end.
Definition sql_bool (b : bool) : sqlval := SqlInt (if b then 1 else 0).

Abbreviation row := (list sqlval).

(** The six tables of [init_db], each the rows inserted so far, oldest
    first. *)
Record database : Type := mk_database {
  market_snapshots : list row;
  outcome_snapshots : list row;
  orderbook_snapshots : list row;
  trade_snapshots : list row;
  resolution_snapshots : list row;
  price_change_events : list row
}.

Definition empty_database : database := mk_database [] [] [] [] [] [].

(** The recorder object: its configuration and its two mutable fields. *)
Record t : Type := mk {
  db_path : string;
  min_volume : float;
  min_liquidity : float;
  interval_seconds : Z;
  _db : option database;
  _running : bool
}.

Definition set_db (self : t) (db : option database) : t :=
  mk (db_path self) (min_volume self) (min_liquidity self) (interval_seconds self)
     db (_running self).

(** [DataRecorder(gamma_client, ...)] with the default arguments. *)
Definition new : t := mk "./data/snapshots.db" 1000.0 500.0 60 None false.

(** [init_db]: [stored] is what the file at [db_path] holds. *)
Definition init_db (self : t) (stored : database) : t := set_db self (Some stored).

Definition close (self : t) : t := set_db self None.

Definition not_initialized : exn :=
  RuntimeError "Database not initialized. Call init_db() first.".

(** *** Snapshot builders *)

(** The inner loop of [create_snapshots]: the pair [(yes_price, no_price)]
    after the loop over the tokens. *)
Definition yes_no_prices (tokens : list Token.t) : float * float :=
  fold_left
    (fun '(yes_price, no_price) token =>
       if String.eqb (lower (Token.outcome token)) "yes" then (Token.price token, no_price)
       else if String.eqb (lower (Token.outcome token)) "no" then (yes_price, Token.price token)
       else (yes_price, no_price))
    tokens (0.0, 0.0)%float.

Definition create_snapshots (timestamp : datetime) (markets : list Market.t)
    : list MarketSnapshot.t :=
  fold_left
    (fun snapshots market =>
       let '(yes_price, no_price) := yes_no_prices (Market.tokens market) in
       if Nat.eqb (List.length (Market.tokens market)) 2 && (0 <? yes_price)%float then
         snapshots ++ [MarketSnapshot.mk timestamp (Market.market_id market)
                         (Market.title market) yes_price no_price
                         (Market.best_bid market) (Market.best_ask market)
                         (Some (Market.volume_24h market)) (Some (Market.liquidity market))
                         (Market.category market) (Some (Market.end_time market))
                         (Market.active market)]
       else snapshots)
    markets [].

Definition create_outcome_snapshots (timestamp : datetime) (markets : list Market.t)
    : list OutcomeSnapshot.t :=
  fold_left
    (fun snapshots market =>
       if (3 <=? List.length (Market.tokens market))%nat then
         fold_left
           (fun snapshots token =>
              snapshots ++ [OutcomeSnapshot.mk timestamp (Market.market_id market)
                              (Token.outcome token) (Token.price token)
                              (Some (Token.token_id token))])
           (Market.tokens market) snapshots
       else snapshots)
    markets [].

(** One side of [create_orderbook_snapshots]: the loop over the levels. *)
Definition book_side (timestamp : datetime) (market_id token_id side : string)
    (entries : pyval) : result (list OrderBookSnapshot.t) :=
  items ← py_iter entries;
  mapM
    (fun '(level, entry) =>
       price ← (p ← py_getitem_key entry "price"; py_float p);
       size ← (s ← py_getitem_key entry "size"; py_float s);
       Ok (OrderBookSnapshot.mk timestamp market_id token_id side (Z.of_nat level)
             price size))
    (enumerate items).

Definition create_orderbook_snapshots (timestamp : datetime) (market_id token_id : string)
    (book_data : dict) (levels : Z) : result (list OrderBookSnapshot.t) :=
  let bids := get_or book_data "bids" (PList []) in
  let asks := get_or book_data "asks" (PList []) in
  '(bids, asks) ← (if 0 <? levels then
                     bids' ← py_slice_to bids levels;
                     asks' ← py_slice_to asks levels;
                     Ok (bids', asks')
                   else Ok (bids, asks));
  bid_snapshots ← book_side timestamp market_id token_id "bid" bids;
  ask_snapshots ← book_side timestamp market_id token_id "ask" asks;
  Ok (bid_snapshots ++ ask_snapshots).

(** The default of the [levels] argument. *)
Definition default_levels : Z := 5.

(** *** Streaming decoders *)

Section Streaming.

(** [datetime.fromisoformat], whose grammar depends on the interpreter's
    version: it returns a datetime or raises. *)
Variable fromisoformat : string -> result datetime.

Definition _parse_ws_timestamp (now : datetime) (ts : pyval) : result datetime :=
  match ts with
  | PNone => Ok now
  | PInt z => t ← int_truediv z 1000; utcfromtimestamp t
  | PBool b => t ← int_truediv (if b then 1 else 0) 1000; utcfromtimestamp t
  | PFloat f => utcfromtimestamp (f / 1000)%float
  | PStr s => except_ValueError (fromisoformat (replace_char "Z" "+00:00" s)) (Ok now)
  | PList _ | PDict _ => Ok now
  end.

(** [float(v) if v else None]. *)
Definition float_if_truthy (v : pyval) : result (option float) :=
  if truthy v then Some <$> py_float v else Ok None.

Definition handle_price_change (now : datetime) (message : dict)
    : result (list PriceChangeEvent.t) :=
  timestamp ← _parse_ws_timestamp now (get message "timestamp");
  let market_id := get_or message "market" (PStr "") in
  let best_bid := get message "best_bid" in
  let best_ask := get message "best_ask" in
  changes ← py_iter (get_or message "price_changes" (PList []));
  mapM
    (fun change =>
       token_id ← py_method_get change "asset_id" (PStr "");
       price ← (p ← py_method_get change "price" (PInt 0); py_float p);
       size ← (s ← py_method_get change "size" (PInt 0); py_float s);
       side ← py_method_get change "side" (PStr "");
       bid ← float_if_truthy best_bid;
       ask ← float_if_truthy best_ask;
       PriceChangeEvent.new timestamp market_id token_id price size side bid ask)
    changes.

End Streaming.

(** *** Save operations *)

(** The row each [INSERT] stores for an item. *)
Definition market_row (s : MarketSnapshot.t) : row :=
  [ SqlText (isoformat (MarketSnapshot.timestamp s));
    SqlText (MarketSnapshot.market_id s);
    SqlText (MarketSnapshot.title s);
    sql_opt SqlText (MarketSnapshot.category s);
    sql_real (MarketSnapshot.yes_price s);
    sql_real (MarketSnapshot.no_price s);
    sql_real (MarketSnapshot.parity_gap s);
    sql_opt sql_real (MarketSnapshot.best_bid s);
    sql_opt sql_real (MarketSnapshot.best_ask s);
    sql_opt sql_real (MarketSnapshot.spread s);
    sql_opt sql_real (MarketSnapshot.volume_24h s);
    sql_opt sql_real (MarketSnapshot.liquidity s);
    sql_opt SqlText (MarketSnapshot.end_time s);
    sql_opt sql_bool (MarketSnapshot.active s) ].

Definition outcome_row (s : OutcomeSnapshot.t) : row :=
  [ SqlText (isoformat (OutcomeSnapshot.timestamp s));
    SqlText (OutcomeSnapshot.market_id s);
    SqlText (OutcomeSnapshot.outcome s);
    sql_real (OutcomeSnapshot.price s);
    sql_opt SqlText (OutcomeSnapshot.token_id s) ].

Definition orderbook_row (s : OrderBookSnapshot.t) : row :=
  [ SqlText (isoformat (OrderBookSnapshot.timestamp s));
    SqlText (OrderBookSnapshot.market_id s);
    SqlText (OrderBookSnapshot.token_id s);
    SqlText (OrderBookSnapshot.side s);
    SqlInt (OrderBookSnapshot.level s);
    sql_real (OrderBookSnapshot.price s);
    sql_real (OrderBookSnapshot.size s) ].

Definition trade_row (s : TradeSnapshot.t) : row :=
  [ SqlText (isoformat (TradeSnapshot.timestamp s));
    SqlText (TradeSnapshot.market_id s);
    SqlText (TradeSnapshot.token_id s);
    sql_real (TradeSnapshot.price s);
    sql_real (TradeSnapshot.size s);
    sql_opt SqlText (TradeSnapshot.side s) ].

Definition resolution_row (s : ResolutionSnapshot.t) : row :=
  [ SqlText (isoformat (ResolutionSnapshot.timestamp s));
    SqlText (ResolutionSnapshot.market_id s);
    sql_bool (ResolutionSnapshot.resolved s);
    sql_opt SqlText (ResolutionSnapshot.resolution_outcome s);
    sql_opt SqlText (ResolutionSnapshot.resolution_source s) ].

Definition price_change_row (e : PriceChangeEvent.t) : row :=
  [ SqlText (isoformat (PriceChangeEvent.timestamp e));
    SqlText (PriceChangeEvent.market_id e);
    SqlText (PriceChangeEvent.token_id e);
    sql_real (PriceChangeEvent.price e);
    sql_real (PriceChangeEvent.size e);
    SqlText (PriceChangeEvent.side e);
    sql_opt sql_real (PriceChangeEvent.best_bid e);
    sql_opt sql_real (PriceChangeEvent.best_ask e) ].

(** One [INSERT] per item, in order, into the table [put] writes. *)
Definition insert_all {A} (to_row : A -> row) (put : database -> row -> database)
    (items : list A) (db : database) : database :=
  fold_left (fun db item => put db (to_row item)) items db.

Definition put_market (db : database) (r : row) : database :=
  mk_database (market_snapshots db ++ [r]) (outcome_snapshots db) (orderbook_snapshots db)
    (trade_snapshots db) (resolution_snapshots db) (price_change_events db).
Definition put_outcome (db : database) (r : row) : database :=
  mk_database (market_snapshots db) (outcome_snapshots db ++ [r]) (orderbook_snapshots db)
    (trade_snapshots db) (resolution_snapshots db) (price_change_events db).
Definition put_orderbook (db : database) (r : row) : database :=
  mk_database (market_snapshots db) (outcome_snapshots db) (orderbook_snapshots db ++ [r])
    (trade_snapshots db) (resolution_snapshots db) (price_change_events db).
Definition put_trade (db : database) (r : row) : database :=
  mk_database (market_snapshots db) (outcome_snapshots db) (orderbook_snapshots db)
    (trade_snapshots db ++ [r]) (resolution_snapshots db) (price_change_events db).
Definition put_resolution (db : database) (r : row) : database :=
  mk_database (market_snapshots db) (outcome_snapshots db) (orderbook_snapshots db)
    (trade_snapshots db) (resolution_snapshots db ++ [r]) (price_change_events db).
Definition put_price_change (db : database) (r : row) : database :=
  mk_database (market_snapshots db) (outcome_snapshots db) (orderbook_snapshots db)
    (trade_snapshots db) (resolution_snapshots db) (price_change_events db ++ [r]).

Definition save_snapshots (self : t) (snapshots : list MarketSnapshot.t) : result t :=
  match _db self with
  | None => Raise not_initialized
  | Some db => Ok (set_db self (Some (insert_all market_row put_market snapshots db)))
  end.

Definition save_outcome_snapshots (self : t) (snapshots : list OutcomeSnapshot.t)
    : result t :=
  match _db self with
  | None => Raise not_initialized
  | Some db => Ok (set_db self (Some (insert_all outcome_row put_outcome snapshots db)))
  end.

(** The loop of [save_orderbook_snapshots]: one [INSERT] per snapshot, in
    order. Binding a [level] outside 64 bits raises [OverflowError], which
    ends the loop. *)
Fixpoint insert_orderbooks (snapshots : list OrderBookSnapshot.t) (db : database)
    : result database :=
  match snapshots with
  | [] => Ok db
  | snapshot :: snapshots' =>
      if fits_int64 (OrderBookSnapshot.level snapshot)
      then insert_orderbooks snapshots' (put_orderbook db (orderbook_row snapshot))
      else Raise OverflowError
  end.

Definition save_orderbook_snapshots (self : t) (snapshots : list OrderBookSnapshot.t)
    : result t :=
  match _db self with
  | None => Raise not_initialized
  | Some db => db' ← insert_orderbooks snapshots db; Ok (set_db self (Some db'))
  end.

Definition save_trade_snapshots (self : t) (snapshots : list TradeSnapshot.t) : result t :=
  match _db self with
  | None => Raise not_initialized
  | Some db => Ok (set_db self (Some (insert_all trade_row put_trade snapshots db)))
  end.

Definition save_resolution_snapshots (self : t) (snapshots : list ResolutionSnapshot.t)
    : result t :=
  match _db self with
  | None => Raise not_initialized
  | Some db => Ok (set_db self (Some (insert_all resolution_row put_resolution snapshots db)))
  end.

Definition save_price_change_events (self : t) (events : list PriceChangeEvent.t)
    : result t :=
  match _db self with
  | None => Ok self
  | Some db => Ok (set_db self (Some (insert_all price_change_row put_price_change events db)))
  end.

(** *** Fetching, trades and the recording cycle *)

(** [fetch_markets]: [fetched] is what the client's [fetch_markets]
    returns. *)
Definition fetch_markets (self : t) (fetched : list Market.t) : list Market.t :=
  List.filter
    (fun m => (min_volume self <=? Market.volume_24h m)%float
              && (min_liquidity self <=? Market.liquidity m)%float)
    fetched.

Definition create_trade_snapshots (timestamp : datetime) (market_id token_id : string)
    (trades : list pyval) : result (list TradeSnapshot.t) :=
  mapM
    (fun trade =>
       price ← (p ← py_getitem_key trade "price"; py_float p);
       size ← (s ← py_getitem_key trade "size"; py_float s);
       side ← py_getitem_key trade "side";
       TradeSnapshot.new timestamp (PStr market_id) (PStr token_id) price size side)
    trades.

Definition is_nil {A} (l : list A) : bool :=
  match l with
  | [] => true
  | _ :: _ => false
  end.

(** [record_once]: [fetched] is what the client returns, and the two
    builders read the clock one after the other. The result is the
    recorder after the cycle with the number of market snapshots. *)
Definition record_once (self : t) (fetched : list Market.t)
    (now_markets now_outcomes : datetime) : result (t * Z) :=
  let markets := fetch_markets self fetched in
  let market_snapshots := create_snapshots now_markets markets in
  self ← (if negb (is_nil market_snapshots) then save_snapshots self market_snapshots
          else Ok self);
  let outcome_snapshots := create_outcome_snapshots now_outcomes markets in
  self ← (if negb (is_nil outcome_snapshots)
          then save_outcome_snapshots self outcome_snapshots
          else Ok self);
  Ok (self, Z.of_nat (List.length market_snapshots)).

Definition set_running (self : t) (running : bool) : t :=
  mk (db_path self) (min_volume self) (min_liquidity self) (interval_seconds self)
     (_db self) running.

Definition stop (self : t) : t := set_running self false.

(** What one pass of the loop of [run] meets: the markets the client
    returns and the two readings of the clock. *)
Record cycle : Type := mk_cycle {
  fetched : list Market.t;
  now_markets : datetime;
  now_outcomes : datetime
}.

(** The body of the loop of [run]: an exception of [record_once] is logged
    and the loop goes on. *)
Definition run_cycle (self : t) (c : cycle) : t :=
  match record_once self (fetched c) (now_markets c) (now_outcomes c) with
  | Ok (self', _) => self'
  | Raise _ => self
  end.

(** The loop of [run] over the passes [cycles], as long as the flag is
    set. *)
Fixpoint run_loop (self : t) (cycles : list cycle) : t :=
  match cycles with
  | [] => self
  | c :: cycles' => if _running self then run_loop (run_cycle self c) cycles' else self
  end.

(** [run], cut after the passes [cycles]. *)
Definition run (self : t) (cycles : list cycle) : t :=
  run_loop (set_running self true) cycles.

(** *** The market stream *)

(** The counters of [connect_market_stream]. *)
Record stats : Type := mk_stats {
  n_book : Z;
  n_price_change : Z;
  n_last_trade_price : Z;
  n_other : Z
}.

Definition no_stats : stats := mk_stats 0 0 0 0.

Definition total (st : stats) : Z :=
  n_book st + n_price_change st + n_last_trade_price st + n_other st.

(** [v.lower()]: only a string has the method. *)
Definition py_lower (v : pyval) : result pyval :=
  match v with
  | PStr s => Ok (PStr (lower s))
  | _ => Raise AttributeError
  end.

(** [event_type == name]. *)
Definition is_text (v : pyval) (name : string) : bool :=
  match v with
  | PStr s => String.eqb s name
  | _ => false
  end.

Definition connected (self : t) : bool :=
  match _db self with
  | Some _ => true
  | None => false
  end.

Section Stream.

Variable fromisoformat : string -> result datetime.

Definition handle_trade_message (now : datetime) (message : dict) : result TradeSnapshot.t :=
  timestamp ← _parse_ws_timestamp fromisoformat now (get message "timestamp");
  let market_id := get_or message "market" (PStr "") in
  let token_id := get_or message "asset_id" (PStr "") in
  price ← py_float (get_or message "price" (PInt 0));
  size ← py_float (get_or message "size" (PInt 0));
  side ← py_lower (get_or message "side" (PStr ""));
  TradeSnapshot.new timestamp market_id token_id price size side.

Definition handle_book_event (now : datetime) (message : dict) : result BookEvent.t :=
  timestamp ← _parse_ws_timestamp fromisoformat now (get message "timestamp");
  BookEvent.new timestamp (get_or message "market" (PStr ""))
    (get_or message "asset_id" (PStr "")) (get message "hash")
    (get_or message "bids" (PList [])) (get_or message "asks" (PList [])).

(** One side of a book event in [connect_market_stream]: the loop over the
    levels. *)
Definition stream_side (book : BookEvent.t) (side : string) (entries : list pyval)
    : result (list OrderBookSnapshot.t) :=
  mapM
    (fun '(level, entry) =>
       price ← (p ← py_method_get entry "price" (PInt 0); py_float p);
       size ← (s ← py_method_get entry "size" (PInt 0); py_float s);
       Ok (OrderBookSnapshot.mk (BookEvent.timestamp book) (BookEvent.market_id book)
             (BookEvent.token_id book) side (Z.of_nat level) price size))
    (enumerate entries).

(** The body of the [try] of [connect_market_stream] on a decoded
    message. *)
Definition process_event (now : datetime) (self : t) (st : stats) (data : pyval)
    : result (t * stats) :=
  event_type ← py_method_get data "event_type" (PStr "");
  match data with
  | PDict message =>
      if is_text event_type "book" then
        book ← handle_book_event now message;
        bid_snapshots ← stream_side book "bid" (BookEvent.bids book);
        ask_snapshots ← stream_side book "ask" (BookEvent.asks book);
        let snapshots := bid_snapshots ++ ask_snapshots in
        self ← (if negb (is_nil snapshots) && connected self
                then save_orderbook_snapshots self snapshots
                else Ok self);
        Ok (self, mk_stats (n_book st + 1) (n_price_change st) (n_last_trade_price st)
                    (n_other st))
      else if is_text event_type "price_change" then
        events ← handle_price_change fromisoformat now message;
        self ← (if negb (is_nil events) && connected self
                then save_price_change_events self events
                else Ok self);
        Ok (self, mk_stats (n_book st) (n_price_change st + Z.of_nat (List.length events))
                    (n_last_trade_price st) (n_other st))
      else if is_text event_type "last_trade_price" then
        trade ← handle_trade_message now message;
        self ← (if connected self then save_trade_snapshots self [trade] else Ok self);
        Ok (self, mk_stats (n_book st) (n_price_change st) (n_last_trade_price st + 1)
                    (n_other st))
      else Ok (self, mk_stats (n_book st) (n_price_change st) (n_last_trade_price st)
                       (n_other st + 1))
  | _ => Raise AttributeError
  end.

(** [json.loads], the library's decoder. *)
Variable json_loads : string -> result pyval.

(** One pass of the [async for] of [connect_market_stream] on a running
    recorder: an exception of the decoder or of the body is logged and the
    message dropped. *)
Definition on_message (now : datetime) (self : t) (st : stats) (message : string)
    : t * stats :=
  match data ← json_loads message; process_event now self st data with
  | Ok after => after
  | Raise _ => (self, st)
  end.

(** The [async for] of one connection over the messages [messages], each
    with the reading of the clock when it arrives; it ends when the flag
    is cleared. *)
Fixpoint receive (self : t) (st : stats) (messages : list (datetime * string))
    : t * stats :=
  match messages with
  | [] => (self, st)
  | (now, message) :: messages' =>
      if _running self then
        let '(self', st') := on_message now self st message in
        receive self' st' messages'
      else (self, st)
  end.

End Stream.

End DataRecorder.

(** ** [scripts/record.py] *)

Module Record.
Import Py Models.

(** The token identifiers [main] subscribes to in [--trades] mode: the
    non-empty identifiers of the tokens of the markets, market after
    market. *)
Definition stream_token_ids (markets : list Market.t) : list string :=
  fold_left
    (fun token_ids m =>
       fold_left
         (fun token_ids t =>
            if truthy (PStr (Token.token_id t)) then token_ids ++ [Token.token_id t]
            else token_ids)
         (Market.tokens m) token_ids)
    markets [].

End Record.

(** ** The specification's vocabulary

    Definitions that follow the words of the specification, to be compared
    with the code above. *)

Module Spec.
Import Py Models.

(** The token's outcome label case-insensitively equals [name]. *)
Definition labelled (name : string) (token : Token.t) : bool :=
  String.eqb (lower (Token.outcome token)) name.

(** The price of the token labelled [name]: of the last such token when
    several carry the label, and 0.0 when none does. *)
Definition price_of_label (name : string) (tokens : list Token.t) : float :=
  match List.find (labelled name) (rev tokens) with
  | Some token => Token.price token
  | None => 0.0%float
  end.

(** Exactly two tokens and a yes price strictly greater than 0. *)
Definition emits_market_snapshot (market : Market.t) : bool :=
  Nat.eqb (List.length (Market.tokens market)) 2
  && (0 <? price_of_label "yes" (Market.tokens market))%float.

(** The snapshot of a binary market. *)
Definition market_snapshot_of (timestamp : datetime) (market : Market.t) : MarketSnapshot.t :=
  MarketSnapshot.mk timestamp (Market.market_id market) (Market.title market)
    (price_of_label "yes" (Market.tokens market))
    (price_of_label "no" (Market.tokens market))
    (Market.best_bid market) (Market.best_ask market)
    (Some (Market.volume_24h market)) (Some (Market.liquidity market))
    (Market.category market) (Some (Market.end_time market)) (Market.active market).

(** The snapshot of one token of a market. *)
Definition outcome_snapshot_of (timestamp : datetime) (market : Market.t) (token : Token.t)
    : OutcomeSnapshot.t :=
  OutcomeSnapshot.mk timestamp (Market.market_id market) (Token.outcome token)
    (Token.price token) (Some (Token.token_id token)).

(** One snapshot per token for a market of three tokens or more, none
    otherwise. *)
Definition outcome_snapshots_of (timestamp : datetime) (market : Market.t)
    : list OutcomeSnapshot.t :=
  if (3 <=? List.length (Market.tokens market))%nat
  then outcome_snapshot_of timestamp market <$> Market.tokens market
  else [].

(** A field of a payload that is present and non-empty. *)
Definition non_empty (data : dict) (key : string) : option pyval :=
  match data !! key with
  | Some v => if truthy v then Some v else None
  | None => None
  end.

(** The identity of a payload: the first non-empty of [conditionId] and
    [condition_id], else the text of [id]. *)
Definition resolved_identity (repr : pyval -> string) (data : dict) : pyval :=
  match non_empty data "conditionId" with
  | Some camel => camel
  | None =>
      match non_empty data "condition_id" with
      | Some snake => snake
      | None => PStr (py_str repr (default (PStr "") (data !! "id")))
      end
  end.

(** A price entry: a value [float()] converts. *)
Definition is_price (v : pyval) : bool := is_ok (py_float v).

(** The token at position [i] of the normalizer's result: the label at
    [i], the price at [i] or 0.0 beyond the price array, the identifier at
    [i] or the empty string beyond the identifier array. *)
Definition token_at (prices : list pyval) (token_ids : list string) (i : nat)
    (label : string) : Token.t :=
  Token.mk (default "" (token_ids !! i)) label
    (match prices !! i with
     | Some p => match py_float p with Ok f => f | Raise _ => 0.0%float end
     | None => 0.0%float
     end).

(** An order-book level: an object whose [price] and [size] [float()]
    converts. *)
Definition is_level (entry : pyval) : bool :=
  match entry with
  | PDict d =>
      match d !! "price", d !! "size" with
      | Some p, Some s => is_price p && is_price s
      | _, _ => false
      end
  | _ => false
  end.

(** The levels of one side that a depth keeps: the first [depth] of the
    supplied ones for a positive depth, all of them otherwise. *)
Definition kept_levels (depth : Z) (supplied : list pyval) : list pyval :=
  if (0 <? depth)%Z then take (Z.to_nat depth) supplied else supplied.

(** The number of levels a depth keeps of [n] supplied ones. *)
Definition kept_count (depth : Z) (n : nat) : nat :=
  if (0 <? depth)%Z then Nat.min (Z.to_nat depth) n else n.

(** A number field of an entry, as a float. *)
Definition number_field (entry : pyval) (key : string) : float :=
  match py_getitem_key entry key ≫= py_float with
  | Ok f => f
  | Raise _ => 0.0%float
  end.

(** The record of the level at [index] of one side. *)
Definition level_record (timestamp : datetime) (market_id token_id side : string)
    (index : nat) (entry : pyval) : OrderBookSnapshot.t :=
  OrderBookSnapshot.mk timestamp market_id token_id side (Z.of_nat index)
    (number_field entry "price") (number_field entry "size").

Definition is_str (v : pyval) : bool :=
  match v with
  | PStr _ => true
  | _ => false
  end.

(** A nested change entry: an object whose [price] and [size] (0 when
    absent) [float()] converts and whose [asset_id] and [side] (empty
    when absent) are strings. *)
Definition is_change (entry : pyval) : bool :=
  match entry with
  | PDict d =>
      is_str (get_or d "asset_id" (PStr ""))
      && is_price (get_or d "price" (PInt 0))
      && is_price (get_or d "size" (PInt 0))
      && is_str (get_or d "side" (PStr ""))
  | _ => false
  end.

(** Every table of [new] starts with the rows of the same table of
    [old]: nothing stored was changed or removed. *)
Definition extends (old new : DataRecorder.database) : Prop :=
  DataRecorder.market_snapshots old `prefix_of` DataRecorder.market_snapshots new
  /\ DataRecorder.outcome_snapshots old `prefix_of` DataRecorder.outcome_snapshots new
  /\ DataRecorder.orderbook_snapshots old `prefix_of` DataRecorder.orderbook_snapshots new
  /\ DataRecorder.trade_snapshots old `prefix_of` DataRecorder.trade_snapshots new
  /\ DataRecorder.resolution_snapshots old `prefix_of` DataRecorder.resolution_snapshots new
  /\ DataRecorder.price_change_events old `prefix_of` DataRecorder.price_change_events new.

(** The recorder [after] differs from [before] at most by rows appended to
    an initialized store. *)
Definition only_appends (before after : DataRecorder.t) : Prop :=
  DataRecorder.db_path after = DataRecorder.db_path before
  /\ DataRecorder.min_volume after = DataRecorder.min_volume before
  /\ DataRecorder.min_liquidity after = DataRecorder.min_liquidity before
  /\ DataRecorder.interval_seconds after = DataRecorder.interval_seconds before
  /\ DataRecorder._running after = DataRecorder._running before
  /\ match DataRecorder._db before, DataRecorder._db after with
     | Some old, Some new => extends old new
     | None, None => True
     | _, _ => False
     end.


(** A level of a streamed book: an object whose [price] and [size] (0 when
    absent) [float()] converts. *)
Definition is_stream_level (entry : pyval) : bool :=
  match entry with
  | PDict d => is_price (get_or d "price" (PInt 0)) && is_price (get_or d "size" (PInt 0))
  | _ => false
  end.

(** The parse of one item of a listing, when it succeeds. *)
Definition parsed (_parse_market : pyval -> result Market.t) (item : pyval)
    : option Market.t :=
  match _parse_market item with
  | Ok market => Some market
  | Raise _ => None
  end.

Definition non_empty_text (s : string) : bool := negb (String.eqb s "").

(** A number field of an entry read with [entry.get(key, 0)], as a
    float. *)
Definition number_field_or_zero (entry : pyval) (key : string) : float :=
  match py_method_get entry key (PInt 0) ≫= py_float with
  | Ok f => f
  | Raise _ => 0.0%float
  end.

(** The record of the level at [index] of one side of a streamed book. *)
Definition stream_level_record (book : BookEvent.t) (side : string) (index : nat)
    (entry : pyval) : OrderBookSnapshot.t :=
  OrderBookSnapshot.mk (BookEvent.timestamp book) (BookEvent.market_id book)
    (BookEvent.token_id book) side (Z.of_nat index)
    (number_field_or_zero entry "price") (number_field_or_zero entry "size").

(** What the market stream may do between a recorder with its counters
    [before] and [after]: it appends rows to the order-book, trade and
    price-change tables of an initialized store and to no other table,
    changes nothing else of the recorder, changes nothing at all of a
    recorder without store, never lowers a counter, and advances the
    trade counter and the price-change counter by the number of rows it
    appends to their tables. *)
Definition stream_progress (before after : DataRecorder.t * DataRecorder.stats) : Prop :=
  only_appends before.1 after.1
  /\ (DataRecorder._db before.1 = None -> after.1 = before.1)
  /\ (forall old new,
        DataRecorder._db before.1 = Some old -> DataRecorder._db after.1 = Some new ->
        DataRecorder.market_snapshots new = DataRecorder.market_snapshots old
        /\ DataRecorder.outcome_snapshots new = DataRecorder.outcome_snapshots old
        /\ DataRecorder.resolution_snapshots new = DataRecorder.resolution_snapshots old
        /\ (Z.of_nat (List.length (DataRecorder.trade_snapshots new))
            - Z.of_nat (List.length (DataRecorder.trade_snapshots old))
            = DataRecorder.n_last_trade_price after.2
              - DataRecorder.n_last_trade_price before.2)%Z
        /\ (Z.of_nat (List.length (DataRecorder.price_change_events new))
            - Z.of_nat (List.length (DataRecorder.price_change_events old))
            = DataRecorder.n_price_change after.2
              - DataRecorder.n_price_change before.2)%Z)
  /\ (DataRecorder.n_book before.2 <= DataRecorder.n_book after.2)%Z
  /\ (DataRecorder.n_price_change before.2 <= DataRecorder.n_price_change after.2)%Z
  /\ (DataRecorder.n_last_trade_price before.2
      <= DataRecorder.n_last_trade_price after.2)%Z
  /\ (DataRecorder.n_other before.2 <= DataRecorder.n_other after.2)%Z.

End Spec.

(** ** Sample data

    Concrete values on which the properties below are instantiated. *)

Module Sample.
Import Py Models.

Local Open Scope Z_scope.

Fixpoint read_digits (n : nat) (acc : Z) (s : list ascii) : option (Z * list ascii) :=
  match n with
  | O => Some (acc, s)
  | S n' =>
      match s with
      | c :: s' => if is_digit c then read_digits n' (10 * acc + digit_val c) s' else None
      | [] => None
      end
  end.

Definition expect (c : ascii) (s : list ascii) : option (list ascii) :=
  match s with
  | c' :: s' => if Ascii.eqb c c' then Some s' else None
  | [] => None
  end.

Definition skip_one (s : list ascii) : option (list ascii) :=
  match s with
  | _ :: s' => Some s'
  | [] => None
  end.

Definition days_in_month (y m : Z) : Z :=
  if m =? 2 then
    if ((y mod 4 =? 0) && negb (y mod 100 =? 0)) || (y mod 400 =? 0) then 29 else 28
  else if (m =? 4) || (m =? 6) || (m =? 9) || (m =? 11) then 30
  else 31.

(** The text of an offset [+HH:MM] or [-HH:MM], or no text. *)
Definition read_offset (s : list ascii) : option (option Z) :=
  match s with
  | [] => Some None
  | c :: s' =>
      if Ascii.eqb c "+" || Ascii.eqb c "-" then
        '(h, s1) ← read_digits 2 0 s';
        s2 ← expect ":" s1;
        '(m, s3) ← read_digits 2 0 s2;
        match s3 with
        | [] =>
            if (h <? 24) && (m <? 60) then
              Some (Some ((if Ascii.eqb c "-" then -1 else 1) * (h * 3600 + m * 60)))
            else None
        | _ :: _ => None
        end
      else None
  end.

(** [datetime.fromisoformat] restricted to the texts
    [YYYY-MM-DD*HH:MM:SS] with an optional offset [+HH:MM] or [-HH:MM],
    where [*] is any one character. Every other text is answered with
    [ValueError] here. *)
Definition fromisoformat_seconds (text : string) : result datetime :=
  let parsed :=
    '(y, s1) ← read_digits 4 0 (list_ascii_of_string text);
    s2 ← expect "-" s1;
    '(m, s3) ← read_digits 2 0 s2;
    s4 ← expect "-" s3;
    '(d, s5) ← read_digits 2 0 s4;
    s6 ← skip_one s5;
    '(hh, s7) ← read_digits 2 0 s6;
    s8 ← expect ":" s7;
    '(mm, s9) ← read_digits 2 0 s8;
    s10 ← expect ":" s9;
    '(ss, s11) ← read_digits 2 0 s10;
    off ← read_offset s11;
    if (1 <=? y) && (1 <=? m) && (m <=? 12) && (1 <=? d) && (d <=? days_in_month y m)
       && (hh <? 24) && (mm <? 60) && (ss <? 60)
    then Some (mk_datetime y m d hh mm ss 0 off)
    else None in
  match parsed with
  | Some dt => Ok dt
  | None => Raise ValueError
  end.

(** The text of a float or container in the samples, none of which holds
    one as an [id]. *)
Definition repr_unused (v : pyval) : string := "".

Definition noon : datetime := mk_datetime 2024 1 1 12 0 0 0 None.

Definition utc_2024 : datetime := mk_datetime 2024 1 1 0 0 0 0 (Some 0).
Definition naive_2024 : datetime := mk_datetime 2024 1 1 0 0 0 0 None.

(** A payload with both condition identifiers and a numeric id. *)
Definition payload_both : dict :=
  {[ "conditionId" := PStr "0xcamel"; "condition_id" := PStr "0xsnake"; "id" := PInt 512 ]}.
Definition payload_snake : dict :=
  {[ "conditionId" := PStr ""; "condition_id" := PStr "0xsnake"; "id" := PInt 512 ]}.
Definition payload_id : dict := {[ "id" := PInt 512 ]}.

Definition level (price size : string) : pyval :=
  PDict {[ "price" := PStr price; "size" := PStr size ]}.

(** An order book with eight bid levels and two ask levels. *)
Definition book_8_2 : dict :=
  {[ "bids" := PList [level "0.50" "10"; level "0.49" "20"; level "0.48" "30";
                      level "0.47" "40"; level "0.46" "50"; level "0.45" "60";
                      level "0.44" "70"; level "0.43" "80"];
     "asks" := PList [level "0.52" "15"; level "0.53" "25"] ]}.

Definition change (asset price size side : string) : pyval :=
  PDict {[ "asset_id" := PStr asset; "price" := PStr price; "size" := PStr size;
           "side" := PStr side ]}.

(** A [price_change] message with two nested change entries. *)
Definition message_two_changes : dict :=
  {[ "event_type" := PStr "price_change";
     "market" := PStr "0xmarket";
     "timestamp" := PInt 1704067200000;
     "best_bid" := PStr "0.5";
     "best_ask" := PStr "0.52";
     "price_changes" := PList [change "tok-yes" "0.51" "100" "BUY";
                               change "tok-no" "0.49" "40" "SELL"] ]}.

(** The same message with a numeric zero best bid and an empty best
    ask. *)
Definition message_zero_bid : dict :=
  <[ "best_bid" := PInt 0 ]> (<[ "best_ask" := PStr "" ]> message_two_changes).

Definition event : PriceChangeEvent.t :=
  PriceChangeEvent.mk noon "0xmarket" "tok-yes" 0.51 100 "BUY" (Some 0.5%float)
    (Some 0.52%float).

Definition market_of (market_id : string) (tokens : list Token.t) : Market.t :=
  Market.mk market_id "Will it rain?" 5000 2500 "2024-12-31T00:00:00Z" tokens
    (Some (Token.outcome <$> tokens)) (Some 0.54%float) (Some 0.56%float) None None
    (Some "512") (Some "will-it-rain") (Some market_id) None (Some true) (Some false)
    (Some false) None (Some "weather") (Some []) None None None None.

Definition binary_market : Market.t :=
  market_of "0xbinary" [Token.mk "tok-yes" "Yes" 0.55; Token.mk "tok-no" "No" 0.44].
Definition unpriced_market : Market.t :=
  market_of "0xunpriced" [Token.mk "tok-yes" "Yes" 0; Token.mk "tok-no" "No" 0].
Definition single_market : Market.t :=
  market_of "0xsingle" [Token.mk "tok-yes" "Yes" 0.9].
Definition ternary_market : Market.t :=
  market_of "0xternary" [Token.mk "tok-a" "Yes" 0.5; Token.mk "tok-b" "No" 0.3;
                         Token.mk "tok-c" "Draw" 0.2].

(** A recorder with an initialized, empty store. *)
Definition ready : DataRecorder.t := DataRecorder.init_db DataRecorder.new
                                       DataRecorder.empty_database.

(** A streamed book of seven bid levels, the third without price. *)
Definition streamed_book : BookEvent.t :=
  BookEvent.mk naive_2024 "0xmarket" "tok-yes" None [] [].
Definition seven_levels : list pyval :=
  [level "0.50" "10"; level "0.49" "20"; PDict {[ "size" := PStr "30" ]};
   level "0.47" "40"; level "0.46" "50"; level "0.45" "60"; level "0.44" "70"].

Definition trade_entry (price size : string) (side : pyval) : pyval :=
  PDict {[ "price" := PStr price; "size" := PStr size; "side" := side ]}.

(** A [last_trade_price] message. *)
Definition message_trade : dict :=
  {[ "event_type" := PStr "last_trade_price"; "market" := PStr "0xmarket";
     "asset_id" := PStr "tok-yes"; "timestamp" := PInt 1704067200000;
     "price" := PStr "0.51"; "size" := PStr "25"; "side" := PStr "BUY" ]}.

(** A [book] message with two bid levels and one ask level. *)
Definition message_book : dict :=
  {[ "event_type" := PStr "book"; "market" := PStr "0xmarket";
     "asset_id" := PStr "tok-yes"; "timestamp" := PInt 1704067200000;
     "bids" := PList [level "0.50" "10"; level "0.49" "20"];
     "asks" := PList [level "0.52" "15"] ]}.

(** The event [message_book] decodes to. *)
Definition book_of_message : BookEvent.t :=
  BookEvent.mk naive_2024 "0xmarket" "tok-yes" None
    [level "0.50" "10"; level "0.49" "20"] [level "0.52" "15"].

(** A decoder for the samples: it knows four texts and rejects the
    others. *)
Definition loads_sample (text : string) : result pyval :=
  if String.eqb text "book" then Ok (PDict message_book)
  else if String.eqb text "price_change" then Ok (PDict message_two_changes)
  else if String.eqb text "trade" then Ok (PDict message_trade)
  else if String.eqb text "pong" then Ok (PDict {[ "event_type" := PStr "pong" ]})
  else Raise ValueError.

(** One pass of the recording loop: a priced binary market, an unpriced
    one, a market of one token and a market of three. *)
Definition pass : DataRecorder.cycle :=
  DataRecorder.mk_cycle [binary_market; unpriced_market; single_market; ternary_market]
    noon noon.

End Sample.

(** ** Properties *)

Import Py Models.

(** *** The error monad *)

Section MapM.
Context {A B : Type} (f : A -> result B).

Lemma mapM_Forall2 (l : list A) (ys : list B) :
  mapM f l = Ok ys -> Forall2 (fun x y => f x = Ok y) l ys.
Proof.
  revert ys. induction l as [|x l IH]; intros ys H; simpl in H.
  - injection H as <-. constructor.
  - destruct (f x) as [y|e] eqn:Hx; simpl in H; [|discriminate].
    destruct (mapM f l) as [ys'|e] eqn:Hl; simpl in H; [|discriminate].
    injection H as <-. constructor; [assumption | now apply IH].
Qed.

Lemma mapM_length (l : list A) (ys : list B) :
  mapM f l = Ok ys -> List.length ys = List.length l.
Proof.
  intros H. apply mapM_Forall2 in H. symmetry. eapply Forall2_length, H.
Qed.

Lemma mapM_total (l : list A) :
  Forall (fun x => is_ok (f x) = true) l -> exists ys, mapM f l = Ok ys.
Proof.
  induction 1 as [|x l Hx _ [ys IH]]; simpl.
  - now exists [].
  - destruct (f x) as [y|e]; [|discriminate]. rewrite IH. now exists (y :: ys).
Qed.

End MapM.

(** *** The builtins on known values *)

Section Builtins.
Local Open Scope float_scope.

(** [round]: 2.675 lies below the tie and 0.125 on it. *)
Example round_known :
  py_round 2.675 2 = 2.67 /\ py_round 0.125 2 = 0.12 /\ py_round (-0.0000001) 6 = -0.0
  /\ py_round (1.0 - 0.55 - 0.44) 6 = 0.01 /\ py_round infinity 6 = infinity.
Proof. vm_compute. repeat split. Qed.

Example float_known :
  py_float (PStr "0.55") = Ok 0.55 /\ py_float (PStr " 1_000.5e-3 ") = Ok 1.0005
  /\ py_float (PStr "-inf") = Ok neg_infinity /\ py_float (PStr "1e400") = Ok infinity
  /\ py_float (PInt 3) = Ok 3 /\ py_float (PBool true) = Ok 1
  /\ py_float (PStr "") = Raise ValueError /\ py_float (PStr "1_") = Raise ValueError
  /\ py_float PNone = Raise TypeError /\ py_float (PInt (10 ^ 400)) = Raise OverflowError.
Proof. vm_compute. repeat split. Qed.

(** [float] strips the tab and the space, not the unit separator. *)
Example float_white_space :
  py_float (PStr (String (ascii_of_nat 9) "1.5 ")) = Ok 1.5
  /\ py_float (PStr (String (ascii_of_nat 31) "1.5")) = Raise ValueError
  /\ py_float (PStr (String (ascii_of_nat 28) "nan")) = Raise ValueError.
Proof. vm_compute. repeat split. Qed.

Example utcfromtimestamp_known :
  isoformat <$> utcfromtimestamp 1700000000 = Ok "2023-11-14T22:13:20"%string
  /\ isoformat <$> utcfromtimestamp 1700000000.1234565 = Ok "2023-11-14T22:13:20.123456"%string
  /\ isoformat <$> utcfromtimestamp (-1.5) = Ok "1969-12-31T23:59:58.500000"%string
  /\ isoformat <$> utcfromtimestamp 253402300799 = Ok "9999-12-31T23:59:59"%string
  /\ utcfromtimestamp 253402300800 = Raise ValueError
  /\ utcfromtimestamp 1e17 = Raise OSError
  /\ utcfromtimestamp 1e19 = Raise OverflowError
  /\ utcfromtimestamp nan = Raise ValueError.
Proof. vm_compute. repeat split. Qed.

End Builtins.

(** *** [models.py]: derived fields *)

(** C2. The parity gap of a market snapshot is
    [round(1 - yes_price - no_price, 6)]; its spread is
    [round(best_ask - best_bid, 6)] when both sides are present and [None]
    when either is absent. *)
Theorem snapshot_derived_fields (s : MarketSnapshot.t) :
  MarketSnapshot.parity_gap s
  = py_round (1.0 - MarketSnapshot.yes_price s - MarketSnapshot.no_price s)%float 6
  /\ MarketSnapshot.spread s
     = match MarketSnapshot.best_bid s, MarketSnapshot.best_ask s with
       | Some bid, Some ask => Some (py_round (ask - bid)%float 6)
       | _, _ => None
       end.
Proof.
  split; [reflexivity|].
  unfold MarketSnapshot.spread.
  destruct (MarketSnapshot.best_bid s), (MarketSnapshot.best_ask s); reflexivity.
Qed.

(** *** [recorder.py]: snapshot builders *)

Section Builders.
Import DataRecorder Spec.

Lemma labelled_yes_not_no (token : Token.t) :
  labelled "yes" token = true -> labelled "no" token = false.
Proof.
  unfold labelled. intros H. apply String.eqb_eq in H. now rewrite H.
Qed.

Lemma price_of_label_snoc (name : string) (tokens : list Token.t) (token : Token.t) :
  price_of_label name (tokens ++ [token])
  = if labelled name token then Token.price token else price_of_label name tokens.
Proof.
  unfold price_of_label. rewrite rev_app_distr. simpl.
  now destruct (labelled name token).
Qed.

(** The loop over the tokens leaves the prices of the tokens labelled yes
    and no. *)
Lemma yes_no_prices_spec (tokens : list Token.t) :
  yes_no_prices tokens = (price_of_label "yes" tokens, price_of_label "no" tokens).
Proof.
  unfold yes_no_prices.
  induction tokens as [|token tokens IH] using rev_ind; [reflexivity|].
  rewrite fold_left_app, IH. simpl. rewrite !price_of_label_snoc.
  fold (labelled "yes" token). fold (labelled "no" token).
  destruct (labelled "yes" token) eqn:Hy.
  - now rewrite (labelled_yes_not_no _ Hy).
  - now destruct (labelled "no" token).
Qed.

Lemma create_snapshots_from (timestamp : datetime) (markets : list Market.t)
    (acc : list MarketSnapshot.t) :
  fold_left
    (fun snapshots market =>
       let '(yes_price, no_price) := yes_no_prices (Market.tokens market) in
       if Nat.eqb (List.length (Market.tokens market)) 2 && (0 <? yes_price)%float then
         snapshots ++ [MarketSnapshot.mk timestamp (Market.market_id market)
                         (Market.title market) yes_price no_price
                         (Market.best_bid market) (Market.best_ask market)
                         (Some (Market.volume_24h market)) (Some (Market.liquidity market))
                         (Market.category market) (Some (Market.end_time market))
                         (Market.active market)]
       else snapshots)
    markets acc
  = acc ++ (market_snapshot_of timestamp <$> List.filter emits_market_snapshot markets).
Proof.
  revert acc. induction markets as [|market markets IH]; intros acc; simpl.
  - now rewrite app_nil_r.
  - rewrite IH, yes_no_prices_spec. unfold emits_market_snapshot at 2.
    destruct (_ && _); simpl; [|reflexivity].
    now rewrite <- app_assoc.
Qed.

Lemma create_snapshots_filter (timestamp : datetime) (markets : list Market.t) :
  create_snapshots timestamp markets
  = (market_snapshot_of timestamp <$> List.filter emits_market_snapshot markets).
Proof. apply (create_snapshots_from timestamp markets []). Qed.

(** C3. [create_snapshots] emits a snapshot for a market exactly when the
    market has two tokens and a yes price above 0: its result is the list
    of the snapshots of those markets, in order, and on one market it is
    that market's snapshot if and only if the market has exactly two
    tokens and a yes price strictly greater than 0. In particular markets
    of one token or of three tokens and more yield no snapshot. *)
Theorem create_snapshots_two_tokens_positive_yes
    (timestamp : datetime) (markets : list Market.t) :
  create_snapshots timestamp markets
  = (market_snapshot_of timestamp <$> List.filter emits_market_snapshot markets)
  /\ (forall market,
        create_snapshots timestamp [market] = [market_snapshot_of timestamp market]
        <-> List.length (Market.tokens market) = 2%nat
            /\ (0 <? price_of_label "yes" (Market.tokens market))%float = true)
  /\ (forall market,
        create_snapshots timestamp [market] = []
        <-> ~ (List.length (Market.tokens market) = 2%nat
               /\ (0 <? price_of_label "yes" (Market.tokens market))%float = true))
  /\ (Forall (fun market => List.length (Market.tokens market) = 1%nat
                            \/ (3 <= List.length (Market.tokens market))%nat) markets ->
      create_snapshots timestamp markets = []).
Proof.
  assert (Hone : forall market,
             create_snapshots timestamp [market]
             = if emits_market_snapshot market then [market_snapshot_of timestamp market]
               else []).
  { intros market. rewrite create_snapshots_filter. cbn [List.filter].
    now destruct (emits_market_snapshot market). }
  assert (Hemits : forall market,
             emits_market_snapshot market = true
             <-> List.length (Market.tokens market) = 2%nat
                 /\ (0 <? price_of_label "yes" (Market.tokens market))%float = true).
  { intros market. unfold emits_market_snapshot.
    rewrite andb_true_iff, Nat.eqb_eq. reflexivity. }
  split; [apply create_snapshots_filter|]. split; [|split].
  - intros market. rewrite Hone, <- Hemits.
    destruct (emits_market_snapshot market); split; congruence.
  - intros market. rewrite Hone, <- Hemits.
    destruct (emits_market_snapshot market); split; congruence.
  - intros Hn. rewrite create_snapshots_filter.
    induction Hn as [|market markets Hm _ IH]; [reflexivity|].
    cbn [List.filter]. unfold emits_market_snapshot at 1.
    replace (Nat.eqb (List.length (Market.tokens market)) 2) with false; [exact IH|].
    symmetry. apply Nat.eqb_neq. lia.
Qed.

Lemma create_outcome_snapshots_from (timestamp : datetime) (markets : list Market.t)
    (acc : list OutcomeSnapshot.t) :
  fold_left
    (fun snapshots market =>
       if (3 <=? List.length (Market.tokens market))%nat then
         fold_left
           (fun snapshots token =>
              snapshots ++ [OutcomeSnapshot.mk timestamp (Market.market_id market)
                              (Token.outcome token) (Token.price token)
                              (Some (Token.token_id token))])
           (Market.tokens market) snapshots
       else snapshots)
    markets acc
  = acc ++ flat_map (outcome_snapshots_of timestamp) markets.
Proof.
  revert acc. induction markets as [|market markets IH]; intros acc;
    cbn [fold_left flat_map].
  - now rewrite app_nil_r.
  - rewrite IH. unfold outcome_snapshots_of at 2.
    destruct (3 <=? _)%nat; [|reflexivity].
    rewrite app_assoc. f_equal.
    generalize (Market.tokens market) as tokens. clear.
    intros tokens. revert acc.
    induction tokens as [|token tokens IH]; intros acc; simpl.
    + now rewrite app_nil_r.
    + rewrite IH, <- app_assoc. reflexivity.
Qed.

Lemma create_outcome_snapshots_flat_map (timestamp : datetime) (markets : list Market.t) :
  create_outcome_snapshots timestamp markets
  = flat_map (outcome_snapshots_of timestamp) markets.
Proof. apply (create_outcome_snapshots_from timestamp markets []). Qed.

(** C9. [create_outcome_snapshots] emits, market after market, one
    snapshot per token of every market with three tokens or more, carrying
    the token's outcome label, price and token id, and nothing for a
    market with fewer than three tokens. *)
Theorem create_outcome_snapshots_one_per_token
    (timestamp : datetime) (markets : list Market.t) :
  create_outcome_snapshots timestamp markets
  = flat_map (outcome_snapshots_of timestamp) markets
  /\ Forall
       (fun market =>
          let emitted := create_outcome_snapshots timestamp [market] in
          if (3 <=? List.length (Market.tokens market))%nat then
            List.length emitted = List.length (Market.tokens market)
            /\ ((fun s => (OutcomeSnapshot.outcome s, OutcomeSnapshot.price s,
                           OutcomeSnapshot.token_id s)) <$> emitted)
               = ((fun token => (Token.outcome token, Token.price token,
                                 Some (Token.token_id token))) <$> Market.tokens market)
          else emitted = [])
       markets.
Proof.
  split; [apply create_outcome_snapshots_flat_map|].
  apply Forall_forall. intros market _. cbv zeta.
  rewrite create_outcome_snapshots_flat_map. cbn [flat_map].
  rewrite app_nil_r. unfold outcome_snapshots_of.
  destruct (3 <=? _)%nat; [|reflexivity].
  split; [apply length_fmap|].
  rewrite <- list_fmap_compose. reflexivity.
Qed.

End Builders.

(** *** [gamma_client.py]: the normalizer *)

Section Enumerate.
Context {A B : Type}.

Lemma mapM_enumerate_from (f : nat -> A -> result B) (g : nat -> A -> B)
    (l : list A) (k : nat) :
  (forall i x, l !! i = Some x -> f (k + i)%nat x = Ok (g (k + i)%nat x)) ->
  mapM (fun '(i, x) => f i x) (zip (seq k (List.length l)) l)
  = Ok (imap (fun i => g (k + i)%nat) l).
Proof.
  revert k. induction l as [|x l IH]; intros k H; [reflexivity|].
  cbn [List.length seq zip zip_with mapM].
  assert (Hx : f k x = Ok (g k x)).
  { specialize (H 0%nat x eq_refl). now rewrite Nat.add_0_r in H. }
  rewrite Hx. cbn [mbind result_bind].
  rewrite (IH (S k)).
  - cbn [mbind result_bind]. rewrite imap_cons, Nat.add_0_r.
    do 2 f_equal. apply imap_ext. intros i y _. simpl. f_equal. lia.
  - intros i y Hy. replace (S k + i)%nat with (k + S i)%nat by lia.
    now apply H.
Qed.

Lemma mapM_enumerate (f : nat -> A -> result B) (g : nat -> A -> B) (l : list A) :
  (forall i x, l !! i = Some x -> f i x = Ok (g i x)) ->
  mapM (fun '(i, x) => f i x) (enumerate l) = Ok (imap g l).
Proof.
  intros H. unfold enumerate. now rewrite (mapM_enumerate_from f g l 0).
Qed.

End Enumerate.

Section Normalizer.
Import GammaClient Spec.

Lemma py_or_list (l : list pyval) : py_or (PList l) (PList []) = PList l.
Proof. now destruct l. Qed.

Lemma build_token_at (prices : list pyval) (token_ids : list string) (i : nat)
    (label : string) :
  match prices !! i with Some p => is_price p = true | None => True end ->
  build_token (PList prices) (PList (PStr <$> token_ids)) i (PStr label)
  = Ok (token_at prices token_ids i label).
Proof.
  intros Hp. unfold build_token, token_at. cbn [py_len mbind result_bind].
  rewrite length_fmap.
  destruct (prices !! i) as [p|] eqn:Hi.
  - assert (Hlt : (i < List.length prices)%nat) by (apply lookup_lt_is_Some; eauto).
    apply Nat.ltb_lt in Hlt. rewrite Hlt. cbn [py_getitem]. rewrite Hi.
    cbn [mbind result_bind]. unfold is_price in Hp.
    destruct (py_float p) as [f|e]; [|discriminate]. cbn [mbind result_bind].
    destruct (token_ids !! i) as [tid|] eqn:Ht.
    + assert (Hlt' : (i < List.length token_ids)%nat) by (apply lookup_lt_is_Some; eauto).
      apply Nat.ltb_lt in Hlt'. rewrite Hlt'. cbn [py_getitem].
      rewrite list_lookup_fmap, Ht. reflexivity.
    + apply lookup_ge_None in Ht. apply Nat.ltb_ge in Ht. rewrite Ht. reflexivity.
  - apply lookup_ge_None in Hi. apply Nat.ltb_ge in Hi. rewrite Hi.
    cbn [mbind result_bind].
    destruct (token_ids !! i) as [tid|] eqn:Ht.
    + assert (Hlt' : (i < List.length token_ids)%nat) by (apply lookup_lt_is_Some; eauto).
      apply Nat.ltb_lt in Hlt'. rewrite Hlt'. cbn [py_getitem].
      rewrite list_lookup_fmap, Ht. reflexivity.
    + apply lookup_ge_None in Ht. apply Nat.ltb_ge in Ht. rewrite Ht. reflexivity.
Qed.

(** A field that arrives as a list is used as it is, and one that
    arrives as text is what [json.loads] makes of it. *)
Lemma decode_field_list (json_loads : string -> result pyval) (data : dict)
    (key : string) (l : list pyval) :
  data !! key = Some (PList l) -> decode_field json_loads data key = PList l.
Proof.
  intros H. unfold decode_field, get_or. now rewrite H.
Qed.

Lemma decode_field_text (json_loads : string -> result pyval) (data : dict)
    (key text : string) (v : pyval) :
  data !! key = Some (PStr text) -> json_loads text = Ok v ->
  decode_field json_loads data key = v.
Proof.
  intros H Hv. unfold decode_field, get_or. now rewrite H; cbn; rewrite Hv.
Qed.

(** C4. Given an array of outcome labels, an array of price entries and an
    array of token identifiers of any lengths, the token loop of the
    normalizer does not raise: it builds one token per outcome label, in
    order, whose price is 0.0 when the price array is shorter and whose
    identifier is the empty string when the identifier array is shorter. *)
Theorem build_tokens_any_lengths
    (outcomes token_ids : list string) (prices : list pyval) :
  Forall (fun p => is_price p = true) (take (List.length outcomes) prices) ->
  exists tokens,
    build_tokens (PList (PStr <$> outcomes)) (PList prices) (PList (PStr <$> token_ids))
    = Ok tokens
    /\ List.length tokens = List.length outcomes
    /\ forall i label,
         outcomes !! i = Some label ->
         exists token,
           tokens !! i = Some token
           /\ Token.outcome token = label
           /\ Ok (Token.price token)
              = match prices !! i with Some p => py_float p | None => Ok 0.0%float end
           /\ Token.token_id token = default "" (token_ids !! i).
Proof.
  intros Hprices.
  assert (Hp : forall i, (i < List.length outcomes)%nat ->
               match prices !! i with Some p => is_price p = true | None => True end).
  { intros i Hi. destruct (prices !! i) as [p|] eqn:Hpi; [|exact I].
    apply (Forall_lookup_1 _ _ i p Hprices). now rewrite lookup_take_lt. }
  pose (label_of := fun v => match v with PStr label => label | _ => ""%string end).
  exists (imap (token_at prices token_ids) outcomes).
  split; [|split].
  - unfold build_tokens. rewrite py_or_list. cbn [py_iter mbind result_bind].
    rewrite (mapM_enumerate _ (fun i v => token_at prices token_ids i (label_of v))).
    + now rewrite imap_fmap.
    + intros i v Hv. rewrite list_lookup_fmap in Hv.
      destruct (outcomes !! i) as [label|] eqn:Hl; [|discriminate].
      injection Hv as <-. apply build_token_at, Hp, lookup_lt_is_Some. eauto.
  - apply length_imap.
  - intros i label Hl. exists (token_at prices token_ids i label).
    rewrite list_lookup_imap, Hl. split; [reflexivity|]. split; [reflexivity|].
    split; [|reflexivity].
    unfold token_at. cbn [Token.price].
    assert (Hi : (i < List.length outcomes)%nat) by (apply lookup_lt_is_Some; eauto).
    specialize (Hp i Hi). destruct (prices !! i) as [p|]; [|reflexivity].
    unfold is_price in Hp. now destruct (py_float p).
Qed.

Lemma non_empty_get_or (data : dict) (key : string) :
  (if truthy (get_or data key (PStr "")) then Some (get_or data key (PStr "")) else None)
  = non_empty data key.
Proof.
  unfold non_empty, get_or. now destruct (data !! key).
Qed.

Lemma market_id_arg_resolved (repr : pyval -> string) (data : dict) :
  market_id_arg repr data = resolved_identity repr data.
Proof.
  unfold market_id_arg, resolved_identity, py_or.
  rewrite <- !non_empty_get_or.
  destruct (truthy (get_or data "conditionId" (PStr ""))); [reflexivity|].
  destruct (truthy (get_or data "condition_id" (PStr ""))); reflexivity.
Qed.

Lemma non_empty_str (data : dict) (key text : string) :
  data !! key = Some (PStr text) -> text <> "" -> non_empty data key = Some (PStr text).
Proof.
  intros H Hne. unfold non_empty. rewrite H. cbn [truthy].
  destruct (String.eqb_spec text ""); [contradiction|reflexivity].
Qed.

(** C5. The identity of a normalized market is resolved by precedence:
    the payload's [conditionId] if non-empty, else its [condition_id] if
    non-empty, else the text of its [id]. In particular a non-empty
    [conditionId] wins whatever [condition_id] holds. *)
Theorem market_identity_precedence (repr : pyval -> string) (data : dict) :
  market_id_arg repr data = resolved_identity repr data
  /\ (forall camel,
        data !! "conditionId" = Some (PStr camel) -> camel <> "" ->
        parse_market_id repr data = Ok camel)
  /\ (forall snake,
        non_empty data "conditionId" = None ->
        data !! "condition_id" = Some (PStr snake) -> snake <> "" ->
        parse_market_id repr data = Ok snake)
  /\ (non_empty data "conditionId" = None ->
      non_empty data "condition_id" = None ->
      parse_market_id repr data = Ok (py_str repr (get_or data "id" (PStr "")))).
Proof.
  unfold parse_market_id. rewrite market_id_arg_resolved. unfold resolved_identity.
  split; [reflexivity|]. split; [|split].
  - intros camel H Hne. now rewrite (non_empty_str _ _ _ H Hne).
  - intros snake Hc H Hne. now rewrite Hc, (non_empty_str _ _ _ H Hne).
  - intros Hc Hs. now rewrite Hc, Hs.
Qed.

End Normalizer.

(** *** [recorder.py]: order books *)

Section OrderBook.
Import DataRecorder Spec.

Lemma length_kept_levels (depth : Z) (supplied : list pyval) :
  List.length (kept_levels depth supplied) = kept_count depth (List.length supplied).
Proof.
  unfold kept_levels, kept_count. destruct (0 <? depth)%Z; [apply length_take|reflexivity].
Qed.

Lemma book_side_levels (timestamp : datetime) (market_id token_id side : string)
    (entries : list pyval) :
  Forall (fun entry => is_level entry = true) entries ->
  book_side timestamp market_id token_id side (PList entries)
  = Ok (imap (level_record timestamp market_id token_id side) entries).
Proof.
  intros Hwf. unfold book_side. cbn [py_iter mbind result_bind].
  apply (mapM_enumerate
           (fun level entry =>
              price ← (p ← py_getitem_key entry "price"; py_float p);
              size ← (s ← py_getitem_key entry "size"; py_float s);
              Ok (OrderBookSnapshot.mk timestamp market_id token_id side
                    (Z.of_nat level) price size))).
  intros i entry Hi. pose proof (Forall_lookup_1 _ _ i entry Hwf Hi) as Hl.
  unfold level_record, number_field. destruct entry; try discriminate.
  cbn [is_level] in Hl. cbn [py_getitem_key].
  destruct (d !! "price") as [p|]; [|discriminate].
  destruct (d !! "size") as [sz|]; [|discriminate].
  unfold is_price in Hl. cbn [mbind result_bind].
  destruct (py_float p); [|discriminate]. destruct (py_float sz); [|discriminate].
  reflexivity.
Qed.

Lemma levels_of_records (timestamp : datetime) (market_id token_id side : string)
    (entries : list pyval) :
  OrderBookSnapshot.level <$> imap (level_record timestamp market_id token_id side) entries
  = Z.of_nat <$> seq 0 (List.length entries).
Proof.
  rewrite fmap_imap. unfold compose. cbn [level_record OrderBookSnapshot.level].
  rewrite <- (imap_seq_0 entries Z.of_nat). reflexivity.
Qed.

Lemma sides_of_records (timestamp : datetime) (market_id token_id side : string)
    (entries : list pyval) :
  Forall (fun r => OrderBookSnapshot.side r = side)
    (imap (level_record timestamp market_id token_id side) entries).
Proof.
  apply Forall_lookup. intros i r Hr. rewrite list_lookup_imap in Hr.
  destruct (entries !! i); [|discriminate]. now injection Hr as <-.
Qed.

(** C8. For an order book whose kept levels are well formed,
    [create_orderbook_snapshots] with depth [d] returns the bid records
    followed by the ask records, each side at the consecutive levels
    0, 1, ... : the first [min d n] of the [n] supplied levels when
    [d > 0], all [n] of them when [d = 0]. *)
Theorem create_orderbook_snapshots_depth
    (timestamp : datetime) (market_id token_id : string) (book_data : dict)
    (depth : Z) (bids asks : list pyval) :
  get_or book_data "bids" (PList []) = PList bids ->
  get_or book_data "asks" (PList []) = PList asks ->
  Forall (fun entry => is_level entry = true) (kept_levels depth bids) ->
  Forall (fun entry => is_level entry = true) (kept_levels depth asks) ->
  exists bid_records ask_records,
    create_orderbook_snapshots timestamp market_id token_id book_data depth
    = Ok (bid_records ++ ask_records)
    /\ bid_records
       = imap (level_record timestamp market_id token_id "bid") (kept_levels depth bids)
    /\ ask_records
       = imap (level_record timestamp market_id token_id "ask") (kept_levels depth asks)
    /\ OrderBookSnapshot.level <$> bid_records
       = Z.of_nat <$> seq 0 (kept_count depth (List.length bids))
    /\ OrderBookSnapshot.level <$> ask_records
       = Z.of_nat <$> seq 0 (kept_count depth (List.length asks)).
Proof.
  intros Hb Ha Hwb Hwa.
  eexists _, _. split; [|split; [reflexivity|split; [reflexivity|]]].
  - unfold create_orderbook_snapshots. rewrite Hb, Ha.
    replace (if (0 <? depth)%Z
             then bids' ← py_slice_to (PList bids) depth;
                  asks' ← py_slice_to (PList asks) depth; Ok (bids', asks')
             else Ok (PList bids, PList asks))
      with (Ok (PList (kept_levels depth bids), PList (kept_levels depth asks))).
    2:{ unfold kept_levels. now destruct (0 <? depth)%Z. }
    cbn [mbind result_bind].
    rewrite (book_side_levels _ _ _ _ _ Hwb). cbn [mbind result_bind].
    rewrite (book_side_levels _ _ _ _ _ Hwa). reflexivity.
  - rewrite !levels_of_records, !length_kept_levels. split; reflexivity.
Qed.

End OrderBook.

(** *** [recorder.py]: streaming decoders *)

Section Decoders.
Import DataRecorder Spec.
Variable fromisoformat : string -> result datetime.

Lemma float_if_truthy_falsy (v : pyval) (o : option float) :
  float_if_truthy v = Ok o -> truthy v = false -> o = None.
Proof.
  unfold float_if_truthy. intros H Hf. rewrite Hf in H. now injection H.
Qed.

Lemma float_if_truthy_some (v : pyval) (f : float) :
  float_if_truthy v = Ok (Some f) -> truthy v = true /\ py_float v = Ok f.
Proof.
  unfold float_if_truthy. destruct (truthy v); [|discriminate].
  destruct (py_float v); cbn; [|discriminate]. intros H. now injection H as <-.
Qed.

(** What one iteration of the loop of [handle_price_change] returns. *)
Lemma price_change_event_fields (timestamp : datetime) (market_id best_bid best_ask : pyval)
    (change : pyval) (e : PriceChangeEvent.t) :
  (token_id ← py_method_get change "asset_id" (PStr "");
   price ← (p ← py_method_get change "price" (PInt 0); py_float p);
   size ← (s ← py_method_get change "size" (PInt 0); py_float s);
   side ← py_method_get change "side" (PStr "");
   bid ← float_if_truthy best_bid;
   ask ← float_if_truthy best_ask;
   PriceChangeEvent.new timestamp market_id token_id price size side bid ask) = Ok e ->
  PriceChangeEvent.timestamp e = timestamp
  /\ PStr (PriceChangeEvent.market_id e) = market_id
  /\ float_if_truthy best_bid = Ok (PriceChangeEvent.best_bid e)
  /\ float_if_truthy best_ask = Ok (PriceChangeEvent.best_ask e).
Proof.
  destruct change; cbn [py_method_get mbind result_bind]; try discriminate.
  destruct (py_float (get_or d "price" (PInt 0))); cbn [mbind result_bind]; [|discriminate].
  destruct (py_float (get_or d "size" (PInt 0))); cbn [mbind result_bind]; [|discriminate].
  destruct (float_if_truthy best_bid); cbn [mbind result_bind]; [|discriminate].
  destruct (float_if_truthy best_ask); cbn [mbind result_bind]; [|discriminate].
  unfold PriceChangeEvent.new.
  destruct market_id; cbn [validate_str mbind result_bind]; try discriminate.
  destruct (get_or d "asset_id" (PStr "")); cbn [validate_str mbind result_bind];
    try discriminate.
  destruct (get_or d "side" (PStr "")); cbn [validate_str mbind result_bind];
    try discriminate.
  intros H. injection H as <-. cbn. auto.
Qed.

Lemma price_change_event_total (timestamp : datetime) (market_id : string)
    (best_bid best_ask : pyval) (bid ask : option float) (change : pyval) :
  float_if_truthy best_bid = Ok bid ->
  float_if_truthy best_ask = Ok ask ->
  is_change change = true ->
  is_ok
    (token_id ← py_method_get change "asset_id" (PStr "");
     price ← (p ← py_method_get change "price" (PInt 0); py_float p);
     size ← (s ← py_method_get change "size" (PInt 0); py_float s);
     side ← py_method_get change "side" (PStr "");
     bid ← float_if_truthy best_bid;
     ask ← float_if_truthy best_ask;
     PriceChangeEvent.new timestamp (PStr market_id) token_id price size side bid ask)
  = true.
Proof.
  intros Hb Ha Hc. destruct change; try discriminate.
  cbn [is_change] in Hc. apply andb_prop in Hc as [Hc Hside].
  apply andb_prop in Hc as [Hc Hsize]. apply andb_prop in Hc as [Hid Hprice].
  cbn [py_method_get mbind result_bind]. unfold is_price in *.
  destruct (py_float (get_or d "price" (PInt 0))); [|discriminate].
  destruct (py_float (get_or d "size" (PInt 0))); [|discriminate].
  cbn [mbind result_bind]. rewrite Hb, Ha. cbn [mbind result_bind].
  destruct (get_or d "asset_id" (PStr "")); try discriminate.
  destruct (get_or d "side" (PStr "")); try discriminate.
  reflexivity.
Qed.

(** C7. A [price_change] message with [n] well-formed nested change
    entries yields exactly [n] events, each carrying the timestamp and
    the market id of the message and the best bid and best ask decoded
    from the message. *)
Theorem handle_price_change_one_event_per_change
    (now : datetime) (message : dict) (changes : list pyval)
    (timestamp : datetime) (market_id : string) (bid ask : option float) :
  _parse_ws_timestamp fromisoformat now (get message "timestamp") = Ok timestamp ->
  get_or message "market" (PStr "") = PStr market_id ->
  float_if_truthy (get message "best_bid") = Ok bid ->
  float_if_truthy (get message "best_ask") = Ok ask ->
  get_or message "price_changes" (PList []) = PList changes ->
  Forall (fun change => is_change change = true) changes ->
  exists events,
    handle_price_change fromisoformat now message = Ok events
    /\ List.length events = List.length changes
    /\ Forall
         (fun e =>
            PriceChangeEvent.timestamp e = timestamp
            /\ PriceChangeEvent.market_id e = market_id
            /\ PriceChangeEvent.best_bid e = bid
            /\ PriceChangeEvent.best_ask e = ask)
         events.
Proof.
  intros Hts Hm Hb Ha Hc Hwf. unfold handle_price_change.
  rewrite Hts, Hm, Hc. cbn [mbind result_bind py_iter].
  match goal with |- context [mapM ?f changes] => set (body := f) end.
  destruct (mapM_total body changes) as [events Hev].
  { eapply Forall_impl; [exact Hwf|]. intros change Hch.
    now apply (price_change_event_total _ _ _ _ bid ask). }
  exists events. split; [exact Hev|]. split; [eapply mapM_length, Hev|].
  apply mapM_Forall2 in Hev. clear Hwf Hc.
  induction Hev as [|change e changes events He _ IH]; constructor; [|exact IH].
  apply price_change_event_fields in He as (Ht & Hid & Hbid & Hask).
  rewrite Hb in Hbid. rewrite Ha in Hask.
  injection Hid as Hid. injection Hbid as Hbid. injection Hask as Hask. auto.
Qed.

(** C10. Every event [handle_price_change] emits for a message whose
    [best_bid] (or [best_ask]) is falsy (absent, [None], numeric zero, the
    empty string) carries [None] for that field, and an event carrying a
    number there comes from a truthy field, whose float it is. The string
    ["0"] is truthy. *)
Theorem handle_price_change_falsy_best_prices
    (now : datetime) (message : dict) (events : list PriceChangeEvent.t) :
  handle_price_change fromisoformat now message = Ok events ->
  Forall
    (fun e =>
       (truthy (get message "best_bid") = false -> PriceChangeEvent.best_bid e = None)
       /\ (truthy (get message "best_ask") = false -> PriceChangeEvent.best_ask e = None)
       /\ (forall f, PriceChangeEvent.best_bid e = Some f ->
             truthy (get message "best_bid") = true
             /\ py_float (get message "best_bid") = Ok f)
       /\ (forall f, PriceChangeEvent.best_ask e = Some f ->
             truthy (get message "best_ask") = true
             /\ py_float (get message "best_ask") = Ok f))
    events
  /\ truthy (PInt 0) = false /\ truthy (PFloat 0.0) = false /\ truthy (PStr "") = false
  /\ truthy PNone = false /\ truthy (PStr "0") = true.
Proof.
  intros H. split; [|now repeat split].
  unfold handle_price_change in H.
  destruct (_parse_ws_timestamp _ _ _) as [timestamp|]; cbn [mbind result_bind] in H;
    [|discriminate].
  destruct (py_iter _) as [changes|]; cbn [mbind result_bind] in H; [|discriminate].
  apply mapM_Forall2 in H.
  induction H as [|change e changes events He _ IH]; constructor; [|exact IH].
  apply price_change_event_fields in He as (_ & _ & Hbid & Hask).
  split; [|split; [|split]].
  - intros Hf. exact (float_if_truthy_falsy _ _ Hbid Hf).
  - intros Hf. exact (float_if_truthy_falsy _ _ Hask Hf).
  - intros f Hf. rewrite Hf in Hbid. now apply float_if_truthy_some.
  - intros f Hf. rewrite Hf in Hask. now apply float_if_truthy_some.
Qed.

End Decoders.

Section Timestamps.
Import DataRecorder Sample.
Variable fromisoformat : string -> result datetime.

(** The parts of the timestamp decoder that fall back to the current
    time: an absent timestamp, a shape that is neither a number nor a
    string, and a string [fromisoformat] rejects. *)
Lemma parse_ws_timestamp_fallbacks (now : datetime) :
  _parse_ws_timestamp fromisoformat now PNone = Ok now
  /\ (forall l, _parse_ws_timestamp fromisoformat now (PList l) = Ok now)
  /\ (forall d, _parse_ws_timestamp fromisoformat now (PDict d) = Ok now)
  /\ (forall s, fromisoformat (replace_char "Z" "+00:00" s) = Raise ValueError ->
                _parse_ws_timestamp fromisoformat now (PStr s) = Ok now).
Proof.
  repeat split. intros s H. cbn [_parse_ws_timestamp]. now rewrite H.
Qed.

(** A datetime decoded from a number is naive. *)
Lemma utcfromtimestamp_naive (t : float) (dt : datetime) :
  utcfromtimestamp t = Ok dt -> tzinfo dt = None.
Proof.
  unfold utcfromtimestamp.
  destruct (is_nan t); [discriminate|]. destruct (is_infinity t); [discriminate|].
  destruct (modf t) as [ip fp].
  destruct (if (1000000 <=? rint (fp * 1000000))%Z then _ else _) as [sec us].
  destruct (_ || _); [discriminate|].
  destruct (civil_from_days _) as [[y m] d].
  destruct (_ || _); [discriminate|]. destruct (_ || _); [discriminate|].
  intros H. now injection H as <-.
Qed.

(** A timestamp decoded from a number is naive, whatever the number. *)
Lemma parse_ws_timestamp_number_naive (now : datetime) (ts : pyval) (dt : datetime) :
  match ts with PInt _ | PFloat _ | PBool _ => True | _ => False end ->
  _parse_ws_timestamp fromisoformat now ts = Ok dt -> tzinfo dt = None.
Proof.
  destruct ts; try contradiction; intros _; cbn [_parse_ws_timestamp].
  - destruct (int_truediv _ 1000) as [t|]; cbn [mbind result_bind]; [|discriminate].
    apply utcfromtimestamp_naive.
  - destruct (int_truediv _ 1000) as [t|]; cbn [mbind result_bind]; [|discriminate].
    apply utcfromtimestamp_naive.
  - apply utcfromtimestamp_naive.
Qed.

(** C6. The timestamp decoder departs from the specification on two
    inputs. A numeric timestamp out of the range of [datetime], such as
    an epoch in nanoseconds, raises instead of falling back to the current
    time. And a text ending in [Z], which [fromisoformat] reads as a
    datetime aware of its UTC offset, is returned as such, while the
    number of the same instant decodes to a naive datetime: the two differ
    and so do their [isoformat] texts. *)
Theorem parse_ws_timestamp_departures (now : datetime) :
  fromisoformat "2024-01-01T00:00:00+00:00" = Ok utc_2024 ->
  _parse_ws_timestamp fromisoformat now (PInt 1700000000000000000) = Raise ValueError
  /\ _parse_ws_timestamp fromisoformat now (PStr "2024-01-01T00:00:00Z") = Ok utc_2024
  /\ _parse_ws_timestamp fromisoformat now (PInt 1704067200000) = Ok naive_2024
  /\ utc_2024 <> naive_2024
  /\ isoformat utc_2024 = "2024-01-01T00:00:00+00:00"
  /\ isoformat naive_2024 = "2024-01-01T00:00:00".
Proof.
  intros Hiso. split; [|split; [|split; [|split; [|split]]]].
  - vm_compute. reflexivity.
  - cbn [_parse_ws_timestamp].
    replace (replace_char "Z" "+00:00" "2024-01-01T00:00:00Z")
      with "2024-01-01T00:00:00+00:00" by (vm_compute; reflexivity).
    now rewrite Hiso.
  - vm_compute. reflexivity.
  - discriminate.
  - vm_compute. reflexivity.
  - vm_compute. reflexivity.
Qed.

End Timestamps.

Lemma parse_ws_timestamp_departures_witness :
  Sample.fromisoformat_seconds "2024-01-01T00:00:00+00:00" = Ok Sample.utc_2024
  /\ DataRecorder._parse_ws_timestamp Sample.fromisoformat_seconds Sample.noon
       (PInt 1700000000000000000) = Raise ValueError
  /\ DataRecorder._parse_ws_timestamp Sample.fromisoformat_seconds Sample.noon
       (PStr "2024-01-01T00:00:00Z") = Ok Sample.utc_2024
  /\ DataRecorder._parse_ws_timestamp Sample.fromisoformat_seconds Sample.noon
       (PInt 1704067200000) = Ok Sample.naive_2024.
Proof.
  assert (H : Sample.fromisoformat_seconds "2024-01-01T00:00:00+00:00" = Ok Sample.utc_2024)
    by (vm_compute; reflexivity).
  split; [exact H|].
  pose proof (parse_ws_timestamp_departures Sample.fromisoformat_seconds Sample.noon H)
    as (H1 & H2 & H3 & _).
  auto.
Defined.

(** *** [recorder.py]: writes before initialization *)

Section Store.
Import DataRecorder.

(** C1, as the code has it. On a recorder whose store is not initialized,
    saving market, outcome, order-book, trade or resolution snapshots
    fails with the precondition error, which is not the storage layer's
    error, and nothing is written; saving price-change events returns
    normally and leaves the recorder as it was. *)
Theorem save_before_init (self : DataRecorder.t) :
  _db self = None ->
  (forall snapshots, save_snapshots self snapshots = Raise not_initialized)
  /\ (forall snapshots, save_outcome_snapshots self snapshots = Raise not_initialized)
  /\ (forall snapshots, save_orderbook_snapshots self snapshots = Raise not_initialized)
  /\ (forall snapshots, save_trade_snapshots self snapshots = Raise not_initialized)
  /\ (forall snapshots, save_resolution_snapshots self snapshots = Raise not_initialized)
  /\ (forall events, save_price_change_events self events = Ok self)
  /\ not_initialized <> SqliteError.
Proof.
  intros H.
  unfold save_snapshots, save_outcome_snapshots, save_orderbook_snapshots,
    save_trade_snapshots, save_resolution_snapshots, save_price_change_events.
  rewrite H. repeat split. discriminate.
Qed.

Lemma save_before_init_witness :
  _db DataRecorder.new = None
  /\ save_snapshots DataRecorder.new [] = Raise not_initialized
  /\ save_price_change_events DataRecorder.new [Sample.event] = Ok DataRecorder.new.
Proof.
  pose proof (save_before_init DataRecorder.new eq_refl) as (H1 & _ & _ & _ & _ & H6 & _).
  split; [reflexivity|]. split; [apply H1 | apply H6].
Defined.

(** C1, as the specification states it, fails for price-change events:
    saving one on the recorder as constructed, whose store is not
    initialized, does not raise. *)
Lemma save_price_change_events_before_init_returns :
  _db DataRecorder.new = None
  /\ save_price_change_events DataRecorder.new [Sample.event] = Ok DataRecorder.new
  /\ save_price_change_events DataRecorder.new [Sample.event] <> Raise not_initialized.
Proof.
  split; [reflexivity|]. split; [reflexivity|]. discriminate.
Qed.

(** Once the store is initialized a save appends one row per item to its
    table, in order, and leaves the other tables alone. *)
Lemma insert_all_price_changes (events : list PriceChangeEvent.t) (db : database) :
  insert_all price_change_row put_price_change events db
  = mk_database (market_snapshots db) (outcome_snapshots db) (orderbook_snapshots db)
      (trade_snapshots db) (resolution_snapshots db)
      (price_change_events db ++ (price_change_row <$> events)).
Proof.
  unfold insert_all. revert db.
  induction events as [|e events IH]; intros db; cbn [fold_left fmap list_fmap].
  - rewrite app_nil_r. now destruct db.
  - rewrite IH. cbn. now rewrite <- app_assoc.
Qed.

End Store.

(** *** The properties on the sample data *)

Section OnSamples.
Import DataRecorder GammaClient Spec Sample.

(** Three labels, two prices, one identifier: three tokens, the third
    priced 0.0 and the last two without identifier. *)
Lemma build_tokens_any_lengths_witness :
  exists tokens,
    build_tokens (PList (PStr <$> ["Yes"; "No"; "Maybe"]))
      (PList [PStr "0.55"; PFloat 0.45]) (PList (PStr <$> ["tok-1"])) = Ok tokens
    /\ List.length tokens = 3%nat
    /\ tokens !! 2%nat = Some (Token.mk "" "Maybe" 0.0).
Proof.
  destruct (build_tokens_any_lengths ["Yes"; "No"; "Maybe"] ["tok-1"]
              [PStr "0.55"; PFloat 0.45]) as (tokens & Hrun & Hlen & Hat).
  { repeat constructor. }
  exists tokens. split; [exact Hrun|]. split; [exact Hlen|].
  destruct (Hat 2%nat "Maybe" eq_refl) as ([tid label price] & Hl & Ho & Hp & Hi).
  cbn in Ho, Hp, Hi. injection Hp as Hp. now subst.
Defined.

(** Both condition identifiers populated: the camel-case one wins. *)
Lemma market_identity_precedence_witness :
  parse_market_id repr_unused payload_both = Ok "0xcamel"
  /\ parse_market_id repr_unused payload_snake = Ok "0xsnake"
  /\ parse_market_id repr_unused payload_id = Ok "512".
Proof.
  split; [|split].
  - apply (proj1 (proj2 (market_identity_precedence repr_unused payload_both))).
    + vm_compute. reflexivity.
    + discriminate.
  - apply (proj1 (proj2 (proj2 (market_identity_precedence repr_unused payload_snake)))).
    + vm_compute. reflexivity.
    + vm_compute. reflexivity.
    + discriminate.
  - apply (proj2 (proj2 (proj2 (market_identity_precedence repr_unused payload_id))));
      vm_compute; reflexivity.
Defined.

(** Depth 5 and eight supplied bid levels: five bid records at the levels
    0 to 4, then the two ask records. *)
Lemma create_orderbook_snapshots_depth_witness :
  exists bid_records ask_records,
    create_orderbook_snapshots noon "0xmarket" "tok-yes" book_8_2 5
    = Ok (bid_records ++ ask_records)
    /\ OrderBookSnapshot.level <$> bid_records = [0; 1; 2; 3; 4]%Z
    /\ OrderBookSnapshot.level <$> ask_records = [0; 1]%Z.
Proof.
  destruct (create_orderbook_snapshots_depth noon "0xmarket" "tok-yes" book_8_2 5
              [level "0.50" "10"; level "0.49" "20"; level "0.48" "30";
               level "0.47" "40"; level "0.46" "50"; level "0.45" "60";
               level "0.44" "70"; level "0.43" "80"]
              [level "0.52" "15"; level "0.53" "25"])
    as (bid_records & ask_records & Hrun & _ & _ & Hbids & Hasks).
  - vm_compute. reflexivity.
  - vm_compute. reflexivity.
  - repeat constructor.
  - repeat constructor.
  - exists bid_records, ask_records. split; [exact Hrun|]. split; assumption.
Defined.

(** Two nested change entries: two events, both with the market id and
    the best bid and ask of the message. *)
Lemma handle_price_change_one_event_per_change_witness :
  exists events,
    handle_price_change fromisoformat_seconds noon message_two_changes = Ok events
    /\ List.length events = 2%nat
    /\ Forall
         (fun e =>
            PriceChangeEvent.timestamp e = naive_2024
            /\ PriceChangeEvent.market_id e = "0xmarket"
            /\ PriceChangeEvent.best_bid e = Some 0.5%float
            /\ PriceChangeEvent.best_ask e = Some 0.52%float)
         events.
Proof.
  apply (handle_price_change_one_event_per_change fromisoformat_seconds noon
           message_two_changes
           [change "tok-yes" "0.51" "100" "BUY"; change "tok-no" "0.49" "40" "SELL"]).
  - vm_compute. reflexivity.
  - vm_compute. reflexivity.
  - vm_compute. reflexivity.
  - vm_compute. reflexivity.
  - vm_compute. reflexivity.
  - repeat constructor.
Defined.

(** A numeric zero best bid and an empty best ask: both events carry
    [None] for the two fields. *)
Lemma handle_price_change_falsy_best_prices_witness :
  exists events,
    handle_price_change fromisoformat_seconds noon message_zero_bid = Ok events
    /\ List.length events = 2%nat
    /\ Forall
         (fun e => PriceChangeEvent.best_bid e = None /\ PriceChangeEvent.best_ask e = None)
         events.
Proof.
  destruct (handle_price_change fromisoformat_seconds noon message_zero_bid)
    as [events|] eqn:Hrun; [|vm_compute in Hrun; discriminate].
  exists events. split; [reflexivity|].
  split; [vm_compute in Hrun; now injection Hrun as <-|].
  pose proof (handle_price_change_falsy_best_prices fromisoformat_seconds noon
                message_zero_bid events Hrun) as [Hall _].
  eapply Forall_impl; [exact Hall|].
  intros e (Hbid & Hask & _). split; [apply Hbid | apply Hask]; vm_compute; reflexivity.
Defined.

(** A priced binary market is recorded with its parity gap and spread; an
    unpriced one, a market of one token and a market of three are not. *)
Example create_snapshots_on_samples :
  create_snapshots noon [binary_market; unpriced_market; single_market; ternary_market]
  = [market_snapshot_of noon binary_market]
  /\ MarketSnapshot.parity_gap (market_snapshot_of noon binary_market) = 0.01%float
  /\ MarketSnapshot.spread (market_snapshot_of noon binary_market) = Some 0.02%float.
Proof. vm_compute. repeat split. Qed.

(** Only the market of three tokens has outcome snapshots, one per
    token. *)
Example create_outcome_snapshots_on_samples :
  create_outcome_snapshots noon [binary_market; single_market; ternary_market]
  = outcome_snapshot_of noon ternary_market <$> Market.tokens ternary_market.
Proof. vm_compute. reflexivity. Qed.

(** A price entry that is not a number makes the token loop raise. *)
Example build_tokens_bad_price :
  build_tokens (PList [PStr "Yes"]) (PList [PStr "abc"]) (PList [PStr "tok-1"])
  = Raise ValueError.
Proof. vm_compute. reflexivity. Qed.

End OnSamples.

(** *** [recorder.py]: the initialized store *)

Section Appends.
Import DataRecorder Spec.

Ltac insert_all_tac items :=
  unfold insert_all;
  let db := fresh "db" in
  let IH := fresh "IH" in
  intros db; revert db;
  induction items as [|? items IH]; intros db; cbn [fold_left fmap list_fmap];
  [ rewrite app_nil_r; now destruct db
  | rewrite IH; cbn; now rewrite <- app_assoc ].

Lemma insert_all_markets (items : list MarketSnapshot.t) :
  forall db, insert_all market_row put_market items db
  = mk_database (market_snapshots db ++ (market_row <$> items)) (outcome_snapshots db)
      (orderbook_snapshots db) (trade_snapshots db) (resolution_snapshots db)
      (price_change_events db).
Proof. insert_all_tac items. Qed.

Lemma insert_all_outcomes (items : list OutcomeSnapshot.t) :
  forall db, insert_all outcome_row put_outcome items db
  = mk_database (market_snapshots db) (outcome_snapshots db ++ (outcome_row <$> items))
      (orderbook_snapshots db) (trade_snapshots db) (resolution_snapshots db)
      (price_change_events db).
Proof. insert_all_tac items. Qed.

Lemma insert_all_orderbooks (items : list OrderBookSnapshot.t) :
  forall db, insert_all orderbook_row put_orderbook items db
  = mk_database (market_snapshots db) (outcome_snapshots db)
      (orderbook_snapshots db ++ (orderbook_row <$> items)) (trade_snapshots db)
      (resolution_snapshots db) (price_change_events db).
Proof. insert_all_tac items. Qed.

Lemma insert_all_trades (items : list TradeSnapshot.t) :
  forall db, insert_all trade_row put_trade items db
  = mk_database (market_snapshots db) (outcome_snapshots db) (orderbook_snapshots db)
      (trade_snapshots db ++ (trade_row <$> items)) (resolution_snapshots db)
      (price_change_events db).
Proof. insert_all_tac items. Qed.

Lemma insert_all_resolutions (items : list ResolutionSnapshot.t) :
  forall db, insert_all resolution_row put_resolution items db
  = mk_database (market_snapshots db) (outcome_snapshots db) (orderbook_snapshots db)
      (trade_snapshots db) (resolution_snapshots db ++ (resolution_row <$> items))
      (price_change_events db).
Proof. insert_all_tac items. Qed.


Lemma insert_orderbooks_all (items : list OrderBookSnapshot.t) (db : database) :
  insert_orderbooks items db
  = if forallb (fun s => fits_int64 (OrderBookSnapshot.level s)) items
    then Ok (insert_all orderbook_row put_orderbook items db)
    else Raise OverflowError.
Proof.
  unfold insert_all. revert db.
  induction items as [|s items IH]; intros db; cbn [insert_orderbooks forallb fold_left];
    [reflexivity|].
  destruct (fits_int64 (OrderBookSnapshot.level s)); [|reflexivity].
  cbn [andb]. apply IH.
Qed.


(** On an initialized store, taken to accept every statement it is sent,
    a save returns after appending one row per item to its own table,
    after the rows already there and in the order of the items, and leaves
    the five other tables as they were. Saving order-book snapshots does
    so when every level fits 64 bits, and raises [OverflowError]
    otherwise. A NaN is stored as [NULL]. *)
Theorem save_appends_in_order (self : DataRecorder.t) (db : database) :
  _db self = Some db ->
  (forall items, save_snapshots self items
     = Ok (set_db self (Some
         (mk_database (market_snapshots db ++ (market_row <$> items))
            (outcome_snapshots db) (orderbook_snapshots db) (trade_snapshots db)
            (resolution_snapshots db) (price_change_events db)))))
  /\ (forall items, save_outcome_snapshots self items
        = Ok (set_db self (Some
            (mk_database (market_snapshots db)
               (outcome_snapshots db ++ (outcome_row <$> items))
               (orderbook_snapshots db) (trade_snapshots db)
               (resolution_snapshots db) (price_change_events db)))))
  /\ (forall items, save_orderbook_snapshots self items
        = if forallb (fun s => fits_int64 (OrderBookSnapshot.level s)) items
          then Ok (set_db self (Some
                 (mk_database (market_snapshots db) (outcome_snapshots db)
                    (orderbook_snapshots db ++ (orderbook_row <$> items))
                    (trade_snapshots db) (resolution_snapshots db)
                    (price_change_events db))))
          else Raise OverflowError)
  /\ (forall items, save_trade_snapshots self items
        = Ok (set_db self (Some
            (mk_database (market_snapshots db) (outcome_snapshots db)
               (orderbook_snapshots db) (trade_snapshots db ++ (trade_row <$> items))
               (resolution_snapshots db) (price_change_events db)))))
  /\ (forall items, save_resolution_snapshots self items
        = Ok (set_db self (Some
            (mk_database (market_snapshots db) (outcome_snapshots db)
               (orderbook_snapshots db) (trade_snapshots db)
               (resolution_snapshots db ++ (resolution_row <$> items))
               (price_change_events db)))))
  /\ (forall items, save_price_change_events self items
        = Ok (set_db self (Some
            (mk_database (market_snapshots db) (outcome_snapshots db)
               (orderbook_snapshots db) (trade_snapshots db) (resolution_snapshots db)
               (price_change_events db ++ (price_change_row <$> items)))))).
Proof.
  intros H.
  unfold save_snapshots, save_outcome_snapshots, save_orderbook_snapshots,
    save_trade_snapshots, save_resolution_snapshots, save_price_change_events.
  rewrite H. repeat split; intros items.
  - now rewrite insert_all_markets.
  - now rewrite insert_all_outcomes.
  - rewrite insert_orderbooks_all.
    destruct (forallb _ items); [|reflexivity].
    cbn [mbind result_bind]. now rewrite insert_all_orderbooks.
  - now rewrite insert_all_trades.
  - now rewrite insert_all_resolutions.
  - now rewrite insert_all_price_changes.
Qed.


End Appends.

(** *** [recorder.py]: what the builders leave out *)

Section BuildersMore.
Import DataRecorder Spec.

(** No market is recorded twice: a market that yields a market snapshot
    yields no outcome snapshot, and a market with fewer than two tokens, or
    with two tokens and a yes price that is not above 0, yields neither. *)
Theorem market_and_outcome_snapshots_exclusive (t1 t2 : datetime) (market : Market.t) :
  (create_snapshots t1 [market] = [] \/ create_outcome_snapshots t2 [market] = [])
  /\ ((List.length (Market.tokens market) < 2)%nat ->
      create_snapshots t1 [market] = [] /\ create_outcome_snapshots t2 [market] = [])
  /\ (List.length (Market.tokens market) = 2%nat ->
      (0 <? price_of_label "yes" (Market.tokens market))%float = false ->
      create_snapshots t1 [market] = [] /\ create_outcome_snapshots t2 [market] = []).
Proof.
  rewrite create_snapshots_filter, create_outcome_snapshots_flat_map.
  cbn [List.filter flat_map]. rewrite app_nil_r.
  unfold emits_market_snapshot, outcome_snapshots_of.
  split; [|split].
  - destruct (Nat.eqb_spec (List.length (Market.tokens market)) 2) as [->|];
      [right|left]; reflexivity.
  - intros Hlt.
    destruct (Nat.eqb_spec (List.length (Market.tokens market)) 2); [lia|].
    destruct (Nat.leb_spec 3 (List.length (Market.tokens market))); [lia|].
    split; reflexivity.
  - intros -> ->. split; reflexivity.
Qed.

Lemma sublist_list_filter {A} (f : A -> bool) (l : list A) :
  sublist (List.filter f l) l.
Proof.
  induction l as [|x l IH]; cbn; [constructor|].
  destruct (f x); now constructor.
Qed.

(** The market snapshots of one call all carry the timestamp of the call,
    and their markets are markets of the input, in the order of the input:
    the market ids of the snapshots are a subsequence of those of the
    markets. *)
Theorem create_snapshots_keeps_order (timestamp : datetime) (markets : list Market.t) :
  Forall (fun s => MarketSnapshot.timestamp s = timestamp)
    (create_snapshots timestamp markets)
  /\ sublist (MarketSnapshot.market_id <$> create_snapshots timestamp markets)
       (Market.market_id <$> markets)
  /\ (List.length (create_snapshots timestamp markets) <= List.length markets)%nat.
Proof.
  rewrite create_snapshots_filter. split; [|split].
  - apply Forall_fmap, Forall_forall. now intros.
  - rewrite <- list_fmap_compose.
    change (MarketSnapshot.market_id ∘ market_snapshot_of timestamp) with Market.market_id.
    apply fmap_sublist, sublist_list_filter.
  - rewrite length_fmap. apply sublist_length, sublist_list_filter.
Qed.

End BuildersMore.

(** *** [recorder.py]: trades and streamed books *)

Section IsOk.
Context {A B : Type} (f : A -> result B).

Lemma is_ok_mapM (l : list A) :
  is_ok (mapM f l) = forallb (fun x => is_ok (f x)) l.
Proof.
  induction l as [|x l IH]; [reflexivity|]. cbn [mapM forallb].
  destruct (f x); cbn; [|reflexivity]. rewrite <- IH.
  now destruct (mapM f l).
Qed.

Lemma is_ok_true (m : result B) : is_ok m = true -> exists b, m = Ok b.
Proof. destruct m; [eauto|discriminate]. Qed.

End IsOk.


Section Trades.
Import DataRecorder Spec.





Section TradeMessages.
Variable fromisoformat : string -> result datetime.


End TradeMessages.

End Trades.

Section StreamedBooks.
Import DataRecorder Spec.

Lemma stream_level_ok (book : BookEvent.t) (side : string) (level : nat) (entry : pyval) :
  is_stream_level entry = true ->
  (price ← (p ← py_method_get entry "price" (PInt 0); py_float p);
   size ← (s ← py_method_get entry "size" (PInt 0); py_float s);
   Ok (OrderBookSnapshot.mk (BookEvent.timestamp book) (BookEvent.market_id book)
         (BookEvent.token_id book) side (Z.of_nat level) price size))
  = Ok (stream_level_record book side level entry).
Proof.
  destruct entry; try discriminate. cbn [is_stream_level]. unfold is_price.
  unfold stream_level_record, number_field_or_zero. cbn [py_method_get mbind result_bind].
  destruct (py_float (get_or d "price" (PInt 0))); [|discriminate].
  destruct (py_float (get_or d "size" (PInt 0))); [|discriminate].
  reflexivity.
Qed.

(** The levels of a streamed side are the positions in a list, which fit
    64 bits as long as the list has at most 2^63 items. *)
Lemma stream_levels_fit (book : BookEvent.t) (side : string) (entries : list pyval) :
  (Z.of_nat (List.length entries) <= 2 ^ 63)%Z ->
  forallb (fun s => fits_int64 (OrderBookSnapshot.level s))
    (imap (stream_level_record book side) entries) = true.
Proof.
  intros Hlen. apply forallb_forall. intros s Hin.
  rewrite <- list_elem_of_In in Hin. apply list_elem_of_lookup in Hin.
  destruct Hin as [i Hi]. rewrite list_lookup_imap in Hi.
  destruct (entries !! i) as [entry|] eqn:He; [|discriminate].
  injection Hi as <-. apply lookup_lt_Some in He.
  unfold stream_level_record, fits_int64. cbn [OrderBookSnapshot.level].
  apply andb_true_iff. split; [apply Z.leb_le | apply Z.ltb_lt]; lia.
Qed.

Lemma mapM_raises {A B} (f : A -> result B) (l : list A) (e0 : exn) :
  (forall x e, In x l -> f x = Raise e -> e = e0) ->
  forall e, mapM f l = Raise e -> e = e0.
Proof.
  induction l as [|x l IH]; intros Hf e; cbn [mapM]; [discriminate|].
  destruct (f x) as [y|ex] eqn:Hx; cbn [mbind result_bind].
  - destruct (mapM f l) as [ys|el] eqn:Hl; cbn [mbind result_bind]; [discriminate|].
    intros H. injection H as <-. apply IH; [|reflexivity].
    intros x' e' Hin. apply Hf. now right.
  - intros H. injection H as <-. apply (Hf x); [now left|exact Hx].
Qed.

(** The order-book builder on levels the stream accepts: a level without
    [price] makes it raise [KeyError]. *)
Lemma book_side_missing_price (timestamp : datetime) (market_id token_id side : string)
    (entries : list pyval) (i : nat) (d : dict) :
  Forall (fun entry => is_stream_level entry = true) entries ->
  entries !! i = Some (PDict d) -> d !! "price" = None ->
  book_side timestamp market_id token_id side (PList entries) = Raise KeyError.
Proof.
  intros Hwf Hi Hprice. unfold book_side. cbn [py_iter mbind result_bind].
  match goal with |- mapM ?f ?l = _ => destruct (mapM f l) as [ys|e] eqn:Hrun end.
  - exfalso.
    assert (Hok : is_ok (mapM
              (fun '(level, entry) =>
                 price ← (p ← py_getitem_key entry "price"; py_float p);
                 size ← (s ← py_getitem_key entry "size"; py_float s);
                 Ok (OrderBookSnapshot.mk timestamp market_id token_id side
                       (Z.of_nat level) price size))
              (enumerate entries)) = true) by now rewrite Hrun.
    rewrite is_ok_mapM, forallb_forall in Hok.
    specialize (Hok (i, PDict d)). cbn [py_getitem_key] in Hok.
    rewrite Hprice in Hok. cbn in Hok.
    assert (Hin : In (i, PDict d) (enumerate entries)); [|specialize (Hok Hin); discriminate].
    apply list_elem_of_In, list_elem_of_lookup. exists i. unfold enumerate.
    apply lookup_zip_with_Some. exists i, (PDict d). split; [reflexivity|].
    split; [|exact Hi]. apply lookup_seq. split; [reflexivity|].
    apply lookup_lt_is_Some. eauto.
  - f_equal. revert e Hrun. apply mapM_raises. intros [level entry] e Hin.
    assert (Hentry : is_stream_level entry = true).
    { rewrite Forall_forall in Hwf. apply Hwf.
      apply list_elem_of_In, list_elem_of_lookup in Hin. destruct Hin as [k Hk].
      unfold enumerate in Hk. apply lookup_zip_with_Some in Hk.
      destruct Hk as (n & x & Heq & _ & Hx). injection Heq as _ <-.
      apply list_elem_of_lookup. eauto. }
    destruct entry; try discriminate Hentry. cbn [is_stream_level] in Hentry.
    unfold is_price, get_or in Hentry. cbn [py_getitem_key].
    destruct (d0 !! "price") as [p|]; cbn [default from_option id mbind result_bind] in *;
      [|congruence].
    destruct (py_float p); cbn [is_ok andb mbind result_bind] in *;
      [|discriminate Hentry].
    destruct (d0 !! "size") as [z|]; cbn [default from_option id mbind result_bind] in *;
      [|congruence].
    destruct (py_float z); cbn [is_ok mbind result_bind] in *;
      [discriminate|discriminate Hentry].
Qed.

(** The book path of the stream keeps every level, whatever their number,
    where [create_orderbook_snapshots] keeps five by default; and a level
    without a [price] is recorded at price 0.0 by the stream, where
    [create_orderbook_snapshots], given the same levels as the bids of a
    book, raises [KeyError] as soon as that level is within the depth. *)
Theorem stream_side_keeps_every_level (book : BookEvent.t) (side : string)
    (entries : list pyval) :
  Forall (fun entry => is_stream_level entry = true) entries ->
  stream_side book side entries = Ok (imap (stream_level_record book side) entries)
  /\ List.length (imap (stream_level_record book side) entries) = List.length entries
  /\ (forall i d,
        entries !! i = Some (PDict d) -> d !! "price" = None ->
        (OrderBookSnapshot.price <$> imap (stream_level_record book side) entries !! i)
        = Some 0.0%float
        /\ forall timestamp market_id token_id book_data asks levels,
             get_or book_data "bids" (PList []) = PList entries ->
             get_or book_data "asks" (PList []) = PList asks ->
             (levels <= 0 \/ Z.of_nat i < levels)%Z ->
             create_orderbook_snapshots timestamp market_id token_id book_data levels
             = Raise KeyError).
Proof.
  intros Hwf. split; [|split].
  - unfold stream_side.
    apply (mapM_enumerate
             (fun level entry =>
                price ← (p ← py_method_get entry "price" (PInt 0); py_float p);
                size ← (s ← py_method_get entry "size" (PInt 0); py_float s);
                Ok (OrderBookSnapshot.mk (BookEvent.timestamp book)
                      (BookEvent.market_id book) (BookEvent.token_id book) side
                      (Z.of_nat level) price size))).
    intros i entry Hi. apply stream_level_ok.
    exact (Forall_lookup_1 _ _ i entry Hwf Hi).
  - apply length_imap.
  - intros i d Hi Hprice. split.
    + rewrite list_lookup_imap, Hi.
      cbn [fmap option_fmap option_map]. f_equal.
      unfold stream_level_record, number_field_or_zero.
      cbn [OrderBookSnapshot.price py_method_get]. unfold get_or.
      rewrite Hprice. reflexivity.
    + intros timestamp market_id token_id book_data asks levels Hbids Hasks Hdepth.
      unfold create_orderbook_snapshots. rewrite Hbids, Hasks.
      destruct (0 <? levels)%Z eqn:Hpos; cbn [py_slice_to mbind result_bind].
      * rewrite (book_side_missing_price timestamp market_id token_id "bid"
                   (take (Z.to_nat levels) entries) i d); [reflexivity| | |exact Hprice].
        -- now apply Forall_take.
        -- rewrite lookup_take_lt; [exact Hi|]. apply Z.ltb_lt in Hpos. lia.
      * now rewrite (book_side_missing_price timestamp market_id token_id "bid"
                       entries i d Hwf Hi Hprice).
Qed.

End StreamedBooks.

(** *** [recorder.py]: the market stream *)

Section StreamInvariant.
Import DataRecorder Spec.

Lemma extends_refl (db : database) : extends db db.
Proof. repeat split; reflexivity. Qed.

Lemma extends_trans (a b c : database) : extends a b -> extends b c -> extends a c.
Proof.
  intros (H1 & H2 & H3 & H4 & H5 & H6) (K1 & K2 & K3 & K4 & K5 & K6).
  repeat split; etransitivity; eassumption.
Qed.

Lemma only_appends_refl (self : DataRecorder.t) : only_appends self self.
Proof.
  repeat split. destruct (_db self); [apply extends_refl|exact I].
Qed.

Lemma only_appends_trans (a b c : DataRecorder.t) :
  only_appends a b -> only_appends b c -> only_appends a c.
Proof.
  intros (H1 & H2 & H3 & H4 & H5 & H6) (K1 & K2 & K3 & K4 & K5 & K6).
  repeat split; try congruence.
  destruct (_db a), (_db b), (_db c); try contradiction; [|exact I].
  eapply extends_trans; eassumption.
Qed.

Lemma stream_progress_refl (x : DataRecorder.t * stats) : stream_progress x x.
Proof.
  split; [apply only_appends_refl|]. split; [reflexivity|]. split; [|lia].
  intros old new H1 H2. rewrite H1 in H2. injection H2 as <-. repeat split; lia.
Qed.

Lemma stream_progress_trans (x y z : DataRecorder.t * stats) :
  stream_progress x y -> stream_progress y z -> stream_progress x z.
Proof.
  intros (Ha & Hn & Hd & Hc) (Ka & Kn & Kd & Kc).
  split; [eapply only_appends_trans; eassumption|].
  split; [intros H; rewrite <- (Hn H); apply Kn; now rewrite (Hn H)|].
  split; [|lia].
  intros old new Hold Hnew.
  destruct Ha as (_ & _ & _ & _ & _ & Ha). rewrite Hold in Ha.
  destruct (_db y.1) as [mid|] eqn:Hmid; [|contradiction].
  destruct (Hd old mid Hold eq_refl) as (H1 & H2 & H3 & H4 & H5).
  destruct (Kd mid new eq_refl Hnew) as (K1 & K2 & K3 & K4 & K5).
  repeat split; try congruence; lia.
Qed.

End StreamInvariant.

Section StreamMessages.
Import DataRecorder Spec.
Variable fromisoformat : string -> result datetime.
Variable json_loads : string -> result pyval.

Lemma progress_counters (self : DataRecorder.t) (st st' : stats) :
  (n_book st <= n_book st')%Z -> (n_price_change st <= n_price_change st')%Z ->
  (n_last_trade_price st <= n_last_trade_price st')%Z -> (n_other st <= n_other st')%Z ->
  (connected self = true ->
   n_price_change st' = n_price_change st
   /\ n_last_trade_price st' = n_last_trade_price st) ->
  stream_progress (self, st) (self, st').
Proof.
  intros H1 H2 H3 H4 Hc.
  split; [apply only_appends_refl|]. split; [reflexivity|]. split; [|cbn; lia].
  cbn. intros old new Hold Hnew. rewrite Hold in Hnew. injection Hnew as <-.
  unfold connected in Hc. rewrite Hold in Hc. destruct (Hc eq_refl) as [-> ->].
  repeat split; lia.
Qed.

Lemma progress_appended (self : DataRecorder.t) (st st' : stats) (db : database)
    (books trades changes : list row) :
  _db self = Some db ->
  (n_book st <= n_book st')%Z -> (n_other st <= n_other st')%Z ->
  n_last_trade_price st' = (n_last_trade_price st + Z.of_nat (List.length trades))%Z ->
  n_price_change st' = (n_price_change st + Z.of_nat (List.length changes))%Z ->
  stream_progress (self, st)
    (set_db self (Some
       (mk_database (market_snapshots db) (outcome_snapshots db)
          (orderbook_snapshots db ++ books) (trade_snapshots db ++ trades)
          (resolution_snapshots db) (price_change_events db ++ changes))), st').
Proof.
  intros Hdb H1 H4 H3 H2.
  split; [|split; [|split]]; cbn.
  - repeat split. rewrite Hdb. cbn.
    repeat split; cbn; first [reflexivity | now apply prefix_app_r].
  - intros H. congruence.
  - intros old new Hold Hnew. rewrite Hdb in Hold. injection Hold as <-.
    injection Hnew as <-. cbn. rewrite !length_app. repeat split; lia.
  - lia.
Qed.

Ltac same_store Hdb :=
  apply progress_counters; cbn; try lia;
  try (intros _; split; first [reflexivity | lia]);
  try (unfold connected; rewrite Hdb; discriminate).

Lemma process_event_progress (now : datetime) (self self' : DataRecorder.t)
    (st st' : stats) (data : pyval) :
  process_event fromisoformat now self st data = Ok (self', st') ->
  stream_progress (self, st) (self', st').
Proof.
  unfold process_event. destruct data; try discriminate.
  cbn [py_method_get mbind result_bind].
  destruct (_db self) as [db|] eqn:Hdb.
  - destruct (is_text _ "book").
    { destruct (handle_book_event _ _ _) as [book|]; cbn [mbind result_bind];
        [|discriminate].
      destruct (stream_side book "bid" _) as [bs|]; cbn [mbind result_bind];
        [|discriminate].
      destruct (stream_side book "ask" _) as [sk|]; cbn [mbind result_bind];
        [|discriminate].
      unfold connected, save_orderbook_snapshots. rewrite Hdb.
      destruct (negb (is_nil (bs ++ sk))); cbn [andb mbind result_bind];
        [|intros H; injection H as <- <-; same_store Hdb].
      rewrite insert_orderbooks_all.
      destruct (forallb _ (bs ++ sk)); cbn [mbind result_bind]; [|discriminate].
      intros H; injection H as <- <-.
      rewrite insert_all_orderbooks.
      match goal with |- stream_progress _ (_, ?st') =>
        pose proof (progress_appended self st st' db (orderbook_row <$> bs ++ sk) [] []
                      Hdb) as P
      end.
      rewrite !app_nil_r in P. apply P; cbn; lia. }
    destruct (is_text _ "price_change").
    { destruct (handle_price_change _ _ _) as [events|]; cbn [mbind result_bind];
        [|discriminate].
      unfold connected, save_price_change_events. rewrite Hdb.
      destruct (is_nil events) eqn:Hnil; cbn [negb andb mbind result_bind];
        intros H; injection H as <- <-.
      { destruct events; [|discriminate]. same_store Hdb. }
      rewrite insert_all_price_changes.
      match goal with |- stream_progress _ (_, ?st') =>
        pose proof (progress_appended self st st' db [] []
                      (price_change_row <$> events) Hdb) as P
      end.
      rewrite !app_nil_r in P. apply P; cbn [n_book n_other n_last_trade_price
        n_price_change List.length]; try lia.
      now rewrite length_fmap. }
    destruct (is_text _ "last_trade_price").
    { destruct (handle_trade_message _ _ _) as [trade|]; cbn [mbind result_bind];
        [|discriminate].
      unfold connected, save_trade_snapshots. rewrite Hdb. cbn [mbind result_bind].
      intros H; injection H as <- <-.
      unfold insert_all. cbn [fold_left]. unfold put_trade.
      match goal with |- stream_progress _ (_, ?st') =>
        pose proof (progress_appended self st st' db [] [trade_row trade] [] Hdb) as P
      end.
      rewrite !app_nil_r in P. apply P; cbn; lia. }
    intros H. injection H as <- <-. same_store Hdb.
  - destruct (is_text _ "book").
    { destruct (handle_book_event _ _ _) as [book|]; cbn [mbind result_bind];
        [|discriminate].
      destruct (stream_side book "bid" _) as [bs|]; cbn [mbind result_bind];
        [|discriminate].
      destruct (stream_side book "ask" _) as [sk|]; cbn [mbind result_bind];
        [|discriminate].
      unfold connected. rewrite Hdb, andb_false_r. cbn [mbind result_bind].
      intros H; injection H as <- <-. same_store Hdb. }
    destruct (is_text _ "price_change").
    { destruct (handle_price_change _ _ _) as [events|]; cbn [mbind result_bind];
        [|discriminate].
      unfold connected. rewrite Hdb, andb_false_r. cbn [mbind result_bind].
      intros H; injection H as <- <-. same_store Hdb. }
    destruct (is_text _ "last_trade_price").
    { destruct (handle_trade_message _ _ _) as [trade|]; cbn [mbind result_bind];
        [|discriminate].
      unfold connected. rewrite Hdb. cbn [mbind result_bind].
      intros H; injection H as <- <-. same_store Hdb. }
    intros H. injection H as <- <-. same_store Hdb.
Qed.

Lemma on_message_progress (now : datetime) (self : DataRecorder.t) (st : stats)
    (message : string) :
  stream_progress (self, st) (on_message fromisoformat json_loads now self st message).
Proof.
  unfold on_message.
  destruct (json_loads message) as [data|]; cbn [mbind result_bind];
    [|apply stream_progress_refl].
  destruct (process_event _ _ _ _ _) as [[self' st']|] eqn:H;
    [|apply stream_progress_refl].
  eapply process_event_progress, H.
Qed.

(** Whatever messages a connection delivers, and whatever the decoder
    makes of them, receiving them never raises and the stream only makes
    progress: it appends rows to the order-book, trade and price-change
    tables of an initialized store, leaving the rows already stored and
    the three other tables as they were; it leaves a recorder without
    store untouched; no counter decreases; and the trade and price-change
    counters advance by the number of rows appended to their tables. *)
Theorem receive_only_makes_progress (messages : list (datetime * string))
    (self : DataRecorder.t) (st : stats) :
  stream_progress (self, st) (receive fromisoformat json_loads self st messages).
Proof.
  revert self st. induction messages as [|[now message] messages IH]; intros self st;
    cbn [receive]; [apply stream_progress_refl|].
  destruct (_running self); [|apply stream_progress_refl].
  pose proof (on_message_progress now self st message) as Hstep.
  destruct (on_message _ _ _ _ _ _) as [self' st'].
  eapply stream_progress_trans; [exact Hstep|apply IH].
Qed.

End StreamMessages.

Section PriceChangeErrors.
Import DataRecorder Spec.
Variable fromisoformat : string -> result datetime.




End PriceChangeErrors.

(** *** The recording cycle *)

Section Cycle.
Import DataRecorder Spec.

Lemma leb_nan_r (x y : float) : is_nan y = true -> (x <=? y)%float = false.
Proof.
  intros H. rewrite leb_spec. unfold Prim2SF at 2. rewrite H.
  unfold SFleb, SFcompare. now destruct (Prim2SF x).
Qed.

Lemma leb_nan_l (x y : float) : is_nan x = true -> (x <=? y)%float = false.
Proof.
  intros H. rewrite leb_spec. unfold Prim2SF at 1. rewrite H. reflexivity.
Qed.

Lemma filter_filter_and {A} (f g : A -> bool) (l : list A) :
  List.filter g (List.filter f l) = List.filter (fun x => f x && g x) l.
Proof.
  induction l as [|x l IH]; [reflexivity|]. cbn [List.filter].
  destruct (f x); cbn [List.filter andb]; [|exact IH].
  destruct (g x); now rewrite IH.
Qed.

(** The recorder's filter is the composition of the client's two filters,
    in either order, and a market whose volume or liquidity is NaN passes
    no threshold. *)
Theorem fetch_markets_composes_filters (self : DataRecorder.t) (fetched : list Market.t) :
  fetch_markets self fetched
  = GammaClient.filter_by_liquidity
      (GammaClient.filter_by_volume fetched (min_volume self)) (min_liquidity self)
  /\ fetch_markets self fetched
     = GammaClient.filter_by_volume
         (GammaClient.filter_by_liquidity fetched (min_liquidity self)) (min_volume self)
  /\ Forall
       (fun m => is_nan (Market.volume_24h m) = false
                 /\ is_nan (Market.liquidity m) = false)
       (fetch_markets self fetched).
Proof.
  unfold fetch_markets, GammaClient.filter_by_liquidity, GammaClient.filter_by_volume.
  rewrite !filter_filter_and. split; [reflexivity|]. split.
  - induction fetched as [|m l IH]; [reflexivity|]. cbn [List.filter].
    rewrite (andb_comm (min_liquidity self <=? Market.liquidity m)%float), IH.
    reflexivity.
  - apply Forall_forall. intros m Hm. apply list_elem_of_In, filter_In in Hm as [_ Hm].
    apply andb_prop in Hm as [Hv Hl]. split.
    + destruct (is_nan (Market.volume_24h m)) eqn:Hn; [|reflexivity].
      now rewrite (leb_nan_r _ _ Hn) in Hv.
    + destruct (is_nan (Market.liquidity m)) eqn:Hn; [|reflexivity].
      now rewrite (leb_nan_r _ _ Hn) in Hl.
Qed.

Lemma set_db_same (self : DataRecorder.t) (db : database) :
  _db self = Some db -> set_db self (Some db) = self.
Proof. destruct self; cbn. now intros ->. Qed.

Lemma is_nil_true {A} (l : list A) : is_nil l = true -> l = [].
Proof. now destruct l. Qed.

Lemma record_once_initialized (self : DataRecorder.t) (db : database)
    (fetched : list Market.t) (t1 t2 : datetime) :
  _db self = Some db ->
  record_once self fetched t1 t2
  = Ok (set_db self (Some
          (mk_database
             (market_snapshots db
              ++ (market_row <$> create_snapshots t1 (fetch_markets self fetched)))
             (outcome_snapshots db
              ++ (outcome_row <$> create_outcome_snapshots t2 (fetch_markets self fetched)))
             (orderbook_snapshots db) (trade_snapshots db) (resolution_snapshots db)
             (price_change_events db))),
        Z.of_nat (List.length (create_snapshots t1 (fetch_markets self fetched)))).
Proof.
  intros Hdb. unfold record_once.
  set (ms := create_snapshots t1 (fetch_markets self fetched)).
  assert (H1 : (if negb (is_nil ms) then save_snapshots self ms else Ok self)
               = Ok (set_db self (Some
                   (mk_database (market_snapshots db ++ (market_row <$> ms))
                      (outcome_snapshots db) (orderbook_snapshots db)
                      (trade_snapshots db) (resolution_snapshots db)
                      (price_change_events db))))).
  { destruct (is_nil ms) eqn:Hnil; cbn [negb].
    - rewrite (is_nil_true _ Hnil). cbn. rewrite app_nil_r.
      replace (mk_database _ _ _ _ _ _) with db by now destruct db.
      now rewrite set_db_same.
    - unfold save_snapshots. now rewrite Hdb, insert_all_markets. }
  rewrite H1. cbn [mbind result_bind].
  set (self1 := set_db self _).
  assert (Hf : fetch_markets self1 fetched = fetch_markets self fetched) by reflexivity.
  set (os := create_outcome_snapshots t2 (fetch_markets self fetched)).
  destruct (is_nil os) eqn:Hnil; cbn [negb mbind result_bind].
  - rewrite (is_nil_true _ Hnil). cbn. now rewrite app_nil_r.
  - unfold save_outcome_snapshots. subst self1. cbn [_db set_db].
    rewrite insert_all_outcomes. reflexivity.
Qed.

(** On an initialized store, taken to accept every statement it is sent,
    one recording cycle returns. It appends the rows of the market
    snapshots of the filtered markets to the market table and those of
    their outcome snapshots to the outcome table, after the rows already
    there, leaves the four other tables as they were, and returns the
    number of market rows it appended. A NaN price or gap is stored as
    [NULL]. *)
Theorem record_once_appends_and_counts (self : DataRecorder.t) (db : database)
    (fetched : list Market.t) (t1 t2 : datetime) :
  _db self = Some db ->
  exists self' db' count,
    record_once self fetched t1 t2 = Ok (self', count)
    /\ _db self' = Some db'
    /\ market_snapshots db'
       = market_snapshots db
         ++ (market_row <$> create_snapshots t1 (fetch_markets self fetched))
    /\ outcome_snapshots db'
       = outcome_snapshots db
         ++ (outcome_row <$> create_outcome_snapshots t2 (fetch_markets self fetched))
    /\ orderbook_snapshots db' = orderbook_snapshots db
    /\ trade_snapshots db' = trade_snapshots db
    /\ resolution_snapshots db' = resolution_snapshots db
    /\ price_change_events db' = price_change_events db
    /\ count = (Z.of_nat (List.length (market_snapshots db'))
                - Z.of_nat (List.length (market_snapshots db)))%Z
    /\ only_appends self self'.
Proof.
  intros Hdb. rewrite (record_once_initialized _ _ _ _ _ Hdb).
  eexists _, _, _. split; [reflexivity|]. cbn [_db set_db].
  split; [reflexivity|]. cbn.
  repeat split; try reflexivity.
  - rewrite length_app, length_fmap. lia.
  - rewrite Hdb. repeat split; cbn; first [reflexivity | now apply prefix_app_r].
Qed.

(** On a recorder whose store is not initialized a recording cycle
    succeeds, with count 0 and nothing changed, exactly when the filtered
    markets yield no snapshot of either kind; otherwise it fails with the
    precondition error. *)
Theorem record_once_without_store (self : DataRecorder.t)
    (fetched : list Market.t) (t1 t2 : datetime) :
  _db self = None ->
  record_once self fetched t1 t2
  = if is_nil (create_snapshots t1 (fetch_markets self fetched))
       && is_nil (create_outcome_snapshots t2 (fetch_markets self fetched))
    then Ok (self, 0%Z)
    else Raise not_initialized.
Proof.
  intros Hdb. unfold record_once, save_snapshots, save_outcome_snapshots.
  destruct (is_nil (create_snapshots _ _)) eqn:Hm; cbn [negb andb mbind result_bind].
  - destruct (is_nil (create_outcome_snapshots _ _)); cbn [negb mbind result_bind].
    + now rewrite (is_nil_true _ Hm).
    + now rewrite Hdb.
  - now rewrite Hdb.
Qed.

Lemma run_loop_initialized (cycles : list cycle) :
  forall (self : DataRecorder.t) (db : database),
  _db self = Some db -> _running self = true ->
  run_loop self cycles
  = set_db self (Some
      (mk_database
         (market_snapshots db
          ++ flat_map (fun c => market_row
                                <$> create_snapshots (now_markets c)
                                      (fetch_markets self (fetched c))) cycles)
         (outcome_snapshots db
          ++ flat_map (fun c => outcome_row
                                <$> create_outcome_snapshots (now_outcomes c)
                                      (fetch_markets self (fetched c))) cycles)
         (orderbook_snapshots db) (trade_snapshots db) (resolution_snapshots db)
         (price_change_events db))).
Proof.
  induction cycles as [|c cycles IH]; intros self db Hdb Hrun; cbn [run_loop flat_map].
  - rewrite !app_nil_r. replace (mk_database _ _ _ _ _ _) with db by now destruct db.
    now rewrite set_db_same.
  - rewrite Hrun. unfold run_cycle.
    rewrite (record_once_initialized _ _ _ _ _ Hdb).
    erewrite IH; [|reflexivity|exact Hrun].
    cbn. now rewrite <- !app_assoc.
Qed.

(** [run] on an initialized store, taken to accept every statement it is
    sent, cut after any number of passes: the market table and the outcome
    table hold, after the rows they had, the rows of every pass in the
    order of the passes, a NaN stored as [NULL]; the other tables are
    unchanged; and the flag is set, also when [stop] was called before
    [run]. *)
Theorem run_records_every_cycle (self : DataRecorder.t) (db : database)
    (cycles : list cycle) :
  _db self = Some db ->
  exists db',
    _db (run self cycles) = Some db'
    /\ market_snapshots db'
       = market_snapshots db
         ++ flat_map (fun c => market_row
                               <$> create_snapshots (now_markets c)
                                     (fetch_markets self (fetched c))) cycles
    /\ outcome_snapshots db'
       = outcome_snapshots db
         ++ flat_map (fun c => outcome_row
                               <$> create_outcome_snapshots (now_outcomes c)
                                     (fetch_markets self (fetched c))) cycles
    /\ orderbook_snapshots db' = orderbook_snapshots db
    /\ trade_snapshots db' = trade_snapshots db
    /\ resolution_snapshots db' = resolution_snapshots db
    /\ price_change_events db' = price_change_events db
    /\ _running (run self cycles) = true
    /\ run (stop self) cycles = run self cycles.
Proof.
  intros Hdb.
  assert (Hstop : run (stop self) cycles = run self cycles) by reflexivity.
  rewrite Hstop. unfold run.
  rewrite (run_loop_initialized cycles (set_running self true) db Hdb eq_refl).
  eexists. split; [reflexivity|]. cbn. repeat split.
Qed.

(** [run] on a recorder whose store is not initialized never raises and
    records nothing: the error of every pass is swallowed and the recorder
    is left as it was, with the flag set. *)
Theorem run_without_store (self : DataRecorder.t) (cycles : list cycle) :
  _db self = None -> run self cycles = set_running self true.
Proof.
  intros Hdb. unfold run.
  assert (H : _db (set_running self true) = None) by exact Hdb.
  assert (Hr : _running (set_running self true) = true) by reflexivity.
  revert H Hr. generalize (set_running self true) as r. clear.
  induction cycles as [|c cycles IH]; intros r H Hr; cbn [run_loop]; [reflexivity|].
  rewrite Hr. unfold run_cycle. rewrite (record_once_without_store _ _ _ _ H).
  destruct (_ && _); now apply IH.
Qed.

End Cycle.

(** *** [gamma_client.py]: the listing *)

Section Listing.
Import GammaClient Spec.
Variable _parse_market : pyval -> result Market.t.

Lemma parse_loop_from (items : list pyval) (acc : list Market.t) :
  fold_left
    (fun markets item =>
       match _parse_market item with
       | Ok market => markets ++ [market]
       | Raise _ => markets
       end)
    items acc
  = acc ++ omap (parsed _parse_market) items.
Proof.
  revert acc. induction items as [|item items IH]; intros acc; cbn [fold_left omap list_omap].
  - now rewrite app_nil_r.
  - rewrite IH. unfold parsed at 2. destruct (_parse_market item); [|reflexivity].
    now rewrite <- app_assoc.
Qed.

(** [fetch_markets] never raises. For a response with status 200 and a
    body that is a list it returns the markets of the items that parse, in
    order: an item whose parsing raises is skipped and the items after it
    are still parsed. Any other status, a failed request, a body that is
    not JSON or cannot be iterated give the empty list. *)
Theorem fetch_markets_skips_bad_items :
  (forall data items,
     py_iter data = Ok items ->
     fetch_markets _parse_market (Ok (200%Z, Ok data)) = omap (parsed _parse_market) items)
  /\ (forall before bad after,
        is_ok (_parse_market bad) = false ->
        fetch_markets _parse_market (Ok (200%Z, Ok (PList (before ++ bad :: after))))
        = fetch_markets _parse_market (Ok (200%Z, Ok (PList before)))
          ++ fetch_markets _parse_market (Ok (200%Z, Ok (PList after))))
  /\ (forall status body,
        status <> 200%Z -> fetch_markets _parse_market (Ok (status, body)) = [])
  /\ (forall e, fetch_markets _parse_market (Raise e) = [])
  /\ (forall e, fetch_markets _parse_market (Ok (200%Z, Raise e)) = [])
  /\ (forall data e,
        py_iter data = Raise e -> fetch_markets _parse_market (Ok (200%Z, Ok data)) = []).
Proof.
  assert (Hlist : forall data items,
            py_iter data = Ok items ->
            fetch_markets _parse_market (Ok (200%Z, Ok data))
            = omap (parsed _parse_market) items).
  { intros data items H. unfold fetch_markets. cbn [mbind result_bind Z.eqb Pos.eqb negb].
    rewrite H. cbn [mbind result_bind]. apply (parse_loop_from items []). }
  split; [exact Hlist|]. split; [|split; [|split; [|split]]].
  - intros before bad after Hbad.
    rewrite !(Hlist (PList _) _ eq_refl), omap_app. cbn [omap list_omap].
    unfold parsed at 2. now destruct (_parse_market bad).
  - intros status body Hs. unfold fetch_markets. cbn [mbind result_bind].
    apply Z.eqb_neq in Hs. now rewrite Hs.
  - reflexivity.
  - reflexivity.
  - intros data e H. unfold fetch_markets. cbn [mbind result_bind Z.eqb Pos.eqb negb].
    now rewrite H.
Qed.

End Listing.

Section Identity.
Import GammaClient Spec.

Lemma condition_id_arg_resolved (data : dict) :
  condition_id_arg data
  = match non_empty data "conditionId" with
    | Some camel => camel
    | None => get_or data "condition_id" (PStr "")
    end.
Proof.
  unfold condition_id_arg, py_or, non_empty, get_or.
  destruct (data !! "conditionId") as [camel|]; cbn [default from_option id];
    [|reflexivity].
  now destruct (truthy camel).
Qed.

Lemma non_empty_truthy (data : dict) (key : string) (v : pyval) :
  non_empty data key = Some v -> truthy v = true.
Proof.
  unfold non_empty. destruct (data !! key) as [x|]; [|discriminate].
  destruct (truthy x) eqn:Hx; [|discriminate]. now intros [= <-].
Qed.

(** The two identity fields of the market are built from the same two
    keys. The [market_id] field fails validation exactly when the first
    non-empty condition identifier is not a string (a non-empty
    [conditionId] that is not a string is not replaced by a valid
    [condition_id]), and the [condition_id] field then fails too. When no
    condition identifier is non-empty, [market_id] does not fail
    validation, but [condition_id] still does unless the value under
    [condition_id] is a string, [None] or absent: a payload with
    [condition_id] 0 is rejected although its identity comes from [id].
    When both fields validate and a condition identifier is non-empty, they
    hold the same text. *)
Theorem parse_market_id_raises_exactly (repr : pyval -> string) (data : dict) :
  (parse_market_id repr data = Raise ValidationError
   <-> exists v,
         (non_empty data "conditionId" = Some v
          \/ (non_empty data "conditionId" = None
              /\ non_empty data "condition_id" = Some v))
         /\ is_str v = false)
  /\ (parse_market_id repr data = Raise ValidationError ->
      parse_condition_id data = Raise ValidationError)
  /\ (non_empty data "conditionId" = None -> non_empty data "condition_id" = None ->
      parse_market_id repr data <> Raise ValidationError
      /\ parse_condition_id data
         = validate_opt_str (get_or data "condition_id" (PStr "")))
  /\ (forall text,
        non_empty data "conditionId" <> None \/ non_empty data "condition_id" <> None ->
        parse_market_id repr data = Ok text ->
        parse_condition_id data = Ok (Some text)).
Proof.
  unfold parse_market_id, parse_condition_id.
  rewrite market_id_arg_resolved, condition_id_arg_resolved. unfold resolved_identity.
  destruct (non_empty data "conditionId") as [camel|] eqn:Hcamel.
  - apply non_empty_truthy in Hcamel. split; [|split; [|split]].
    + split.
      * intros H. exists camel. split; [now left|]. now destruct camel.
      * intros (v & [Hv|[Hv _]] & Hs); [|discriminate].
        injection Hv as <-. now destruct camel.
    + now destruct camel.
    + discriminate.
    + intros text _. destruct camel; cbn; congruence.
  - destruct (non_empty data "condition_id") as [snake|] eqn:Hsnake.
    + assert (Hget : get_or data "condition_id" (PStr "") = snake).
      { unfold non_empty in Hsnake. unfold get_or.
        destruct (data !! "condition_id") as [v|]; [|discriminate].
        destruct (truthy v); [|discriminate]. now injection Hsnake as <-. }
      rewrite Hget. apply non_empty_truthy in Hsnake. split; [|split; [|split]].
      * split.
        -- intros H. exists snake. split; [now right|]. now destruct snake.
        -- intros (v & [Hv|[_ Hv]] & Hs); [discriminate|].
           injection Hv as <-. now destruct snake.
      * now destruct snake.
      * discriminate.
      * intros text _. destruct snake; cbn; congruence.
    + split; [|split; [|split]].
      * split; [discriminate|].
        intros (v & [Hv|[_ Hv]] & _); discriminate.
      * discriminate.
      * intros _ _. split; [discriminate|reflexivity].
      * intros text [H|H]; congruence.
Qed.

End Identity.

(** *** [scripts/record.py]: the subscription *)

Section Subscription.
Import GammaClient Spec Record.

Lemma stream_token_ids_from (markets : list Market.t) (acc : list string) :
  fold_left
    (fun token_ids m =>
       fold_left
         (fun token_ids t =>
            if truthy (PStr (Token.token_id t)) then token_ids ++ [Token.token_id t]
            else token_ids)
         (Market.tokens m) token_ids)
    markets acc
  = acc ++ List.filter non_empty_text
             (Token.token_id <$> flat_map Market.tokens markets).
Proof.
  revert acc. induction markets as [|m markets IH]; intros acc; cbn [fold_left flat_map].
  - now rewrite app_nil_r.
  - rewrite IH, fmap_app, List.filter_app, app_assoc. f_equal.
    generalize (Market.tokens m) as tokens. clear. intros tokens. revert acc.
    induction tokens as [|t tokens IH]; intros acc; cbn [fold_left fmap list_fmap List.filter].
    + now rewrite app_nil_r.
    + rewrite IH. cbn [truthy]. fold (non_empty_text (Token.token_id t)).
      destruct (non_empty_text (Token.token_id t)); [|reflexivity].
      now rewrite <- app_assoc.
Qed.

Lemma stream_token_ids_filter (markets : list Market.t) :
  stream_token_ids markets
  = List.filter non_empty_text (Token.token_id <$> flat_map Market.tokens markets).
Proof. apply (stream_token_ids_from markets []). Qed.

Lemma filter_defaulted_ids (token_ids : list string) (n k : nat) :
  List.filter non_empty_text ((fun i => default "" (token_ids !! i)) <$> seq k n)
  = List.filter non_empty_text (take n (drop k token_ids)).
Proof.
  revert k. induction n as [|n IH]; intros k; [reflexivity|].
  cbn [seq fmap list_fmap List.filter]. rewrite IH.
  destruct (token_ids !! k) as [x|] eqn:Hk.
  - rewrite (drop_S _ _ _ Hk). reflexivity.
  - cbn [default non_empty_text String.eqb negb].
    apply lookup_ge_None in Hk.
    rewrite !drop_ge by lia. now rewrite !take_nil.
Qed.

Lemma build_token_id (prices : pyval) (token_ids : list string) (i : nat)
    (outcome : pyval) (token : Token.t) :
  build_token prices (PList (PStr <$> token_ids)) i outcome = Ok token ->
  Token.token_id token = default "" (token_ids !! i).
Proof.
  unfold build_token.
  destruct (py_len prices) as [n|]; cbn [mbind result_bind]; [|discriminate].
  destruct (if (i <? n)%nat then _ else _) as [price|]; cbn [mbind result_bind];
    [|discriminate].
  cbn [py_len mbind result_bind]. rewrite length_fmap.
  destruct (i <? List.length token_ids)%nat eqn:Hlt.
  - apply Nat.ltb_lt, lookup_lt_is_Some in Hlt as [x Hx].
    cbn [py_getitem]. rewrite list_lookup_fmap, Hx. cbn [fmap option_fmap option_map].
    cbn [mbind result_bind]. unfold Token.new. cbn [validate_str mbind result_bind].
    destruct (validate_str outcome); cbn [mbind result_bind]; [|discriminate].
    intros H. now injection H as <-.
  - apply Nat.ltb_ge, lookup_ge_None in Hlt. rewrite Hlt.
    cbn [mbind result_bind]. unfold Token.new. cbn [validate_str mbind result_bind].
    destruct (validate_str outcome); cbn [mbind result_bind]; [|discriminate].
    intros H. now injection H as <-.
Qed.

Lemma build_tokens_ids (outcomes prices : pyval) (token_ids : list string)
    (tokens : list Token.t) :
  build_tokens outcomes prices (PList (PStr <$> token_ids)) = Ok tokens ->
  Token.token_id <$> tokens
  = (fun i => default "" (token_ids !! i)) <$> seq 0 (List.length tokens).
Proof.
  unfold build_tokens.
  destruct (py_iter _) as [items|]; cbn [mbind result_bind]; [|discriminate].
  unfold enumerate. generalize 0%nat as k. revert tokens.
  induction items as [|item items IH]; intros tokens k H; cbn in H.
  - now injection H as <-.
  - destruct (build_token _ _ k item) as [token|] eqn:Ht; cbn in H; [|discriminate].
    destruct (mapM _ _) as [rest|] eqn:Hrest; cbn in H; [|discriminate].
    injection H as <-. cbn [fmap list_fmap List.length seq].
    rewrite (build_token_id _ _ _ _ _ Ht). f_equal. now apply IH.
Qed.

(** The stream subscribes to the non-empty token identifiers of the
    markets, in order, and to no empty one. For a market whose tokens the
    normalizer built from an array of identifiers, these are the non-empty
    identifiers among the first as many as there are tokens: a token whose
    identifier the normalizer defaulted to the empty string is not
    subscribed. *)
Theorem stream_token_ids_non_empty (markets : list Market.t) :
  stream_token_ids markets
  = List.filter non_empty_text (Token.token_id <$> flat_map Market.tokens markets)
  /\ Forall (fun token_id => token_id <> "") (stream_token_ids markets)
  /\ (forall market outcomes prices token_ids,
        build_tokens outcomes prices (PList (PStr <$> token_ids))
        = Ok (Market.tokens market) ->
        stream_token_ids [market]
        = List.filter non_empty_text
            (take (List.length (Market.tokens market)) token_ids)).
Proof.
  split; [apply stream_token_ids_filter|]. split.
  - rewrite stream_token_ids_filter. apply Forall_forall. intros id Hid.
    apply list_elem_of_In, filter_In in Hid as [_ Hid]. unfold non_empty_text in Hid.
    intros ->. discriminate.
  - intros market outcomes prices token_ids H.
    rewrite stream_token_ids_filter. cbn [flat_map]. rewrite app_nil_r.
    rewrite (build_tokens_ids _ _ _ _ H), filter_defaulted_ids. now rewrite drop_0.
Qed.

End Subscription.

(** *** The further properties on the sample data *)

Section OnMoreSamples.
Import DataRecorder GammaClient Spec Sample.

(** One event saved on an empty store: the price-change table holds its
    row and the other tables are empty. An order-book snapshot at level
    2^63 is not saved. *)
Lemma save_appends_in_order_witness :
  _db ready = Some empty_database
  /\ save_price_change_events ready [event]
     = Ok (set_db ready (Some (mk_database [] [] [] [] [] [price_change_row event])))
  /\ save_orderbook_snapshots ready
       [OrderBookSnapshot.mk noon "0xmarket" "tok-yes" "bid" (2 ^ 63) 0.5 1]
     = Raise OverflowError.
Proof.
  pose proof (save_appends_in_order ready empty_database eq_refl)
    as (_ & _ & Hbook & _ & _ & H).
  split; [reflexivity|]. split; [apply (H [event])|].
  exact (Hbook [OrderBookSnapshot.mk noon "0xmarket" "tok-yes" "bid" (2 ^ 63) 0.5 1]).
Defined.

(** A NaN price is stored as [NULL] and a negative zero as zero. *)
Example rows_on_samples :
  outcome_row (OutcomeSnapshot.mk noon "0xmarket" "Yes" nan (Some "tok-yes"%string))
  = [SqlText "2024-01-01T12:00:00"; SqlText "0xmarket"; SqlText "Yes"; SqlNull;
     SqlText "tok-yes"]
  /\ sql_real (-0.0) = SqlReal 0.0 /\ sql_real (-0.5) = SqlReal (-0.5).
Proof. vm_compute. repeat split. Qed.

(** Seven streamed levels, the third without price: seven records, the
    third at price 0.0, where the order-book builder at its default depth
    raises [KeyError]. *)
Lemma stream_side_keeps_every_level_witness :
  stream_side streamed_book "bid" seven_levels
  = Ok (imap (stream_level_record streamed_book "bid") seven_levels)
  /\ List.length (imap (stream_level_record streamed_book "bid") seven_levels) = 7%nat
  /\ create_orderbook_snapshots noon "0xmarket" "tok-yes"
       {[ "bids" := PList seven_levels ]} default_levels = Raise KeyError.
Proof.
  destruct (stream_side_keeps_every_level streamed_book "bid" seven_levels)
    as (Hrun & Hlen & Hat).
  { repeat constructor. }
  split; [exact Hrun|]. split; [exact Hlen|].
  destruct (Hat 2%nat {[ "size" := PStr "30" ]} eq_refl) as [_ Hraise];
    [vm_compute; reflexivity|].
  apply (Hraise noon "0xmarket" "tok-yes" {[ "bids" := PList seven_levels ]} []);
    [vm_compute; reflexivity|vm_compute; reflexivity|].
  right. vm_compute. reflexivity.
Defined.

(** One pass over four markets on an empty store: one market row, for the
    priced binary market, and three outcome rows, for the market of three
    tokens. *)
Lemma record_once_appends_and_counts_witness :
  exists self' db',
    record_once ready (fetched pass) noon noon = Ok (self', 1%Z)
    /\ _db self' = Some db'
    /\ List.length (market_snapshots db') = 1%nat
    /\ List.length (outcome_snapshots db') = 3%nat.
Proof.
  destruct (record_once_appends_and_counts ready empty_database (fetched pass) noon noon
              eq_refl)
    as (self' & db' & count & Hrun & Hdb & Hm & Ho & _ & _ & _ & _ & Hcount & _).
  exists self', db'. rewrite Hcount in Hrun. rewrite Hm in Hrun |- *. rewrite Ho.
  split; [exact Hrun|]. split; [exact Hdb|]. split; vm_compute; reflexivity.
Defined.

(** Without store the same pass fails with the precondition error, and a
    pass that yields no snapshot succeeds. *)
Lemma record_once_without_store_witness :
  record_once DataRecorder.new (fetched pass) noon noon = Raise not_initialized
  /\ record_once DataRecorder.new [single_market] noon noon = Ok (DataRecorder.new, 0%Z).
Proof.
  split.
  - exact (record_once_without_store DataRecorder.new (fetched pass) noon noon eq_refl).
  - exact (record_once_without_store DataRecorder.new [single_market] noon noon eq_refl).
Defined.

(** Two passes: two market rows and six outcome rows. *)
Lemma run_records_every_cycle_witness :
  exists db',
    _db (run ready [pass; pass]) = Some db'
    /\ List.length (market_snapshots db') = 2%nat
    /\ List.length (outcome_snapshots db') = 6%nat
    /\ _running (run ready [pass; pass]) = true.
Proof.
  destruct (run_records_every_cycle ready empty_database [pass; pass] eq_refl)
    as (db' & Hdb & Hm & Ho & _ & _ & _ & _ & Hrun & _).
  exists db'. rewrite Hm, Ho.
  split; [exact Hdb|]. split; [vm_compute; reflexivity|].
  split; [vm_compute; reflexivity|exact Hrun].
Defined.

Lemma run_without_store_witness :
  run DataRecorder.new [pass; pass] = set_running DataRecorder.new true.
Proof. exact (run_without_store DataRecorder.new [pass; pass] eq_refl). Defined.

(** Five messages on an initialized store: the one the decoder rejects is
    dropped, the book appends three rows, the price change two, the trade
    one, with its side lowered, and the unknown kind none. *)
Example receive_on_samples :
  let '(after, counters) :=
    receive fromisoformat_seconds loads_sample (set_running ready true) no_stats
      [(noon, "book"); (noon, "garbage"); (noon, "price_change"); (noon, "trade");
       (noon, "pong")]%string in
  counters = mk_stats 1 2 1 1
  /\ (List.length <$> (orderbook_snapshots <$> _db after)) = Some 3%nat
  /\ (List.length <$> (price_change_events <$> _db after)) = Some 2%nat
  /\ (trade_snapshots <$> _db after)
     = Some [[SqlText "2024-01-01T00:00:00"; SqlText "0xmarket"; SqlText "tok-yes";
              SqlReal 0.51; SqlReal 25; SqlText "buy"]].
Proof. vm_compute. repeat split. Qed.

(** Two trades, the second without side key: the call raises. *)
Example create_trade_snapshots_on_samples :
  is_ok (create_trade_snapshots noon "0xmarket" "tok-yes"
           [trade_entry "0.5" "3" (PStr "buy"); trade_entry "0.6" "4" PNone]) = true
  /\ create_trade_snapshots noon "0xmarket" "tok-yes"
       [trade_entry "0.5" "3" (PStr "buy");
        PDict {[ "price" := PStr "1"; "size" := PStr "2" ]}] = Raise KeyError.
Proof. vm_compute. repeat split. Qed.

(** A truthy [conditionId] that is not a string defeats a valid
    [condition_id]; and a payload whose [condition_id] is 0 has the
    identity 512 of its [id], but no valid [condition_id]. *)
Example parse_market_id_on_number :
  parse_market_id repr_unused
    {[ "conditionId" := PInt 7; "condition_id" := PStr "0xsnake" ]}
  = Raise ValidationError
  /\ parse_market_id repr_unused
       {[ "conditionId" := PStr ""; "condition_id" := PInt 0; "id" := PInt 512 ]}
     = Ok "512"
  /\ parse_condition_id
       {[ "conditionId" := PStr ""; "condition_id" := PInt 0; "id" := PInt 512 ]}
     = Raise ValidationError.
Proof. vm_compute. repeat split. Qed.

End OnMoreSamples.

(** *** [recorder.py]: book events of the stream *)

Section BookEvents.
Import DataRecorder Spec.
Variable fromisoformat : string -> result datetime.

(** [handle_book_event] returns exactly when the timestamp decodes, the
    market and the asset are strings, the hash is a string or absent and
    the bids and the asks are lists; the event then holds the two lists as
    they arrived, however their levels are made. *)
Theorem handle_book_event_returns_exactly (now : datetime) (message : dict) :
  is_ok (handle_book_event fromisoformat now message)
  = is_ok (_parse_ws_timestamp fromisoformat now (get message "timestamp"))
    && is_str (get_or message "market" (PStr ""))
    && is_str (get_or message "asset_id" (PStr ""))
    && is_ok (validate_opt_str (get message "hash"))
    && is_ok (validate_list (get_or message "bids" (PList [])))
    && is_ok (validate_list (get_or message "asks" (PList [])))
  /\ (forall book,
        handle_book_event fromisoformat now message = Ok book ->
        _parse_ws_timestamp fromisoformat now (get message "timestamp")
        = Ok (BookEvent.timestamp book)
        /\ get_or message "market" (PStr "") = PStr (BookEvent.market_id book)
        /\ get_or message "asset_id" (PStr "") = PStr (BookEvent.token_id book)
        /\ get_or message "bids" (PList []) = PList (BookEvent.bids book)
        /\ get_or message "asks" (PList []) = PList (BookEvent.asks book)).
Proof.
  unfold handle_book_event.
  destruct (_parse_ws_timestamp _ _ _) as [timestamp|]; cbn [mbind result_bind is_ok andb];
    [|split; [reflexivity|discriminate]].
  unfold BookEvent.new.
  destruct (get_or message "market" (PStr "")) as [| | | |market| |];
    cbn [validate_str mbind result_bind is_ok is_str andb];
    try (split; [reflexivity|discriminate]).
  destruct (get_or message "asset_id" (PStr "")) as [| | | |asset| |];
    cbn [validate_str mbind result_bind is_ok is_str andb];
    try (split; [reflexivity|discriminate]).
  destruct (validate_opt_str (get message "hash")) as [hash|];
    cbn [mbind result_bind is_ok andb]; [|split; [reflexivity|discriminate]].
  destruct (get_or message "bids" (PList [])) as [| | | | |bids|];
    cbn [validate_list mbind result_bind is_ok andb];
    try (split; [reflexivity|discriminate]).
  destruct (get_or message "asks" (PList [])) as [| | | | |asks|];
    cbn [validate_list mbind result_bind is_ok andb];
    try (split; [reflexivity|discriminate]).
  split; [reflexivity|]. intros book H. injection H as <-. cbn. auto.
Qed.

(** A book message whose levels are well formed, received on an
    initialized store, appends one row per level to the order-book table,
    the bids first and then the asks, each side numbered from level 0, and
    advances the book counter by one, whatever the number of levels. The
    two sides are lists of the interpreter, which hold fewer than 2^63
    items, so that every level can be bound. *)
Theorem process_book_event_records_every_level
    (now : datetime) (self : DataRecorder.t) (st : stats) (message : dict)
    (db : database) (book : BookEvent.t) :
  _db self = Some db ->
  get_or message "event_type" (PStr "") = PStr "book" ->
  handle_book_event fromisoformat now message = Ok book ->
  Forall (fun entry => is_stream_level entry = true) (BookEvent.bids book) ->
  Forall (fun entry => is_stream_level entry = true) (BookEvent.asks book) ->
  (Z.of_nat (List.length (BookEvent.bids book)) <= 2 ^ 63)%Z ->
  (Z.of_nat (List.length (BookEvent.asks book)) <= 2 ^ 63)%Z ->
  process_event fromisoformat now self st (PDict message)
  = Ok (set_db self (Some
          (mk_database (market_snapshots db) (outcome_snapshots db)
             (orderbook_snapshots db
              ++ (orderbook_row
                  <$> imap (stream_level_record book "bid") (BookEvent.bids book)
                      ++ imap (stream_level_record book "ask") (BookEvent.asks book)))
             (trade_snapshots db) (resolution_snapshots db) (price_change_events db))),
        mk_stats (n_book st + 1) (n_price_change st) (n_last_trade_price st) (n_other st)).
Proof.
  intros Hdb Htype Hbook Hbids Hasks Hnbids Hnasks. unfold process_event.
  cbn [py_method_get mbind result_bind]. rewrite Htype. cbn [is_text String.eqb Ascii.eqb].
  change (String.eqb "book" "book") with true. cbv iota.
  rewrite Hbook. cbn [mbind result_bind].
  assert (Hside : forall side entries,
            Forall (fun entry => is_stream_level entry = true) entries ->
            stream_side book side entries
            = Ok (imap (stream_level_record book side) entries)).
  { intros side entries Hwf. unfold stream_side.
    apply (mapM_enumerate
             (fun level entry =>
                price ← (p ← py_method_get entry "price" (PInt 0); py_float p);
                size ← (s ← py_method_get entry "size" (PInt 0); py_float s);
                Ok (OrderBookSnapshot.mk (BookEvent.timestamp book)
                      (BookEvent.market_id book) (BookEvent.token_id book) side
                      (Z.of_nat level) price size))).
    intros i entry Hi. apply stream_level_ok.
    exact (Forall_lookup_1 _ _ i entry Hwf Hi). }
  rewrite (Hside "bid" _ Hbids). cbn [mbind result_bind].
  rewrite (Hside "ask" _ Hasks). cbn [mbind result_bind].
  unfold connected. rewrite Hdb.
  destruct (is_nil (_ ++ _)) eqn:Hnil; cbn [negb andb mbind result_bind].
  - rewrite (is_nil_true _ Hnil). cbn [fmap list_fmap]. rewrite app_nil_r.
    replace (mk_database _ _ _ _ _ _) with db by now destruct db.
    now rewrite set_db_same.
  - unfold save_orderbook_snapshots. rewrite Hdb, insert_orderbooks_all.
    rewrite forallb_app, !stream_levels_fit by assumption.
    cbn [andb mbind result_bind]. rewrite insert_all_orderbooks. reflexivity.
Qed.

End BookEvents.

(** A book message with two bid levels and one ask level on an empty
    store: three rows, at the levels 0, 1 and 0. *)
Lemma process_book_event_records_every_level_witness :
  DataRecorder.handle_book_event Sample.fromisoformat_seconds Sample.noon
    Sample.message_book = Ok Sample.book_of_message
  /\ exists self',
       DataRecorder.process_event Sample.fromisoformat_seconds Sample.noon Sample.ready
         DataRecorder.no_stats (PDict Sample.message_book)
       = Ok (self', DataRecorder.mk_stats 1 0 0 0)
       /\ (List.length <$> (DataRecorder.orderbook_snapshots <$> DataRecorder._db self'))
          = Some 3%nat.
Proof.
  assert (Hb : DataRecorder.handle_book_event Sample.fromisoformat_seconds Sample.noon
                 Sample.message_book = Ok Sample.book_of_message)
    by (vm_compute; reflexivity).
  split; [exact Hb|]. eexists. split.
  - apply (process_book_event_records_every_level Sample.fromisoformat_seconds Sample.noon
             Sample.ready DataRecorder.no_stats Sample.message_book
             DataRecorder.empty_database Sample.book_of_message eq_refl).
    + vm_compute. reflexivity.
    + exact Hb.
    + repeat constructor.
    + repeat constructor.
    + vm_compute. discriminate.
    + vm_compute. discriminate.
  - vm_compute. reflexivity.
Defined.
